(** * A shallow embedding of awis-py (awis.py and awis/awis.py)

    The library builds SigV4-signed GET requests for the Alexa Web
    Information Service, splits traffic-history queries into sub-queries of
    at most [MAX_SEARCH_RANGE] days and parses the XML answers.

    Modelling choices:
    - a Python [str] is a list of code points ([pystr]); [bytes] is a list of
      8-bit values ([bytes]);
    - exceptions are the constructors of [pyerr]; a computation that may raise
      returns a [result];
    - the clock reads ([datetime.date.today()], [datetime.datetime.utcnow()])
      are explicit state: the n-th read of each clock returns [today_at n]
      resp. [utc_at n], and the state counts the reads done so far and
      records the canonical query of every request built;
    - the network ([requests.get], [grequests.map]) is a parameter too: an
      action on the state that may return anything or fail;
    - the cryptographic primitives (SHA-256 and HMAC-SHA256 of [hashlib] and
      [hmac]), [float()], [int()], [strptime] and lxml's document parsing are
      library code, kept as parameters of the sections that use them. *)

From Stdlib Require Import ZArith List String Ascii Bool Lia.
Import ListNotations.
Open Scope Z_scope.

(** ** Python values *)

(** A Python [str]: a sequence of code points. *)
Definition pystr := list Z.

(** A Python [bytes] object: a sequence of values in [0, 256). *)
Definition bytes := list Z.

(** A string literal of the source (all literals are ASCII). *)
Fixpoint lit (s : string) : pystr :=
  match s with
  | EmptyString => []
  | String c s' => Z.of_nat (nat_of_ascii c) :: lit s'
  end.

(** Exceptions raised by the modelled code. *)
Inductive pyerr :=
| UnicodeEncodeError
| OverflowError
| ValueError (msg : string)
| SearchRangeError (msg : string)
| AttributeError (name : string)
| NameError (msg : string)
| TypeError
| XMLSyntaxError.

Inductive result (A : Type) :=
| Ok (a : A)
| Err (e : pyerr).
Arguments Ok {A} a.
Arguments Err {A} e.

Definition rbind {A B} (r : result A) (k : A -> result B) : result B :=
  match r with Ok a => k a | Err e => Err e end.

Notation "x <-? r ;; k" := (rbind r (fun x => k))
  (at level 61, r at next level, right associativity).

Definition of_option {A} (e : pyerr) (o : option A) : result A :=
  match o with Some a => Ok a | None => Err e end.

(** ** [str.encode('utf-8')] *)

(** One code point; lone surrogates are refused by the strict codec. *)
Definition utf8_char (c : Z) : option bytes :=
  if (c <? 0) then None
  else if c <? 128 then Some [c]
  else if c <? 2048 then
    Some [Z.lor 192 (Z.shiftr c 6); Z.lor 128 (Z.land c 63)]
  else if (55296 <=? c) && (c <=? 57343) then None
  else if c <? 65536 then
    Some [Z.lor 224 (Z.shiftr c 12); Z.lor 128 (Z.land (Z.shiftr c 6) 63);
          Z.lor 128 (Z.land c 63)]
  else if c <=? 1114111 then
    Some [Z.lor 240 (Z.shiftr c 18); Z.lor 128 (Z.land (Z.shiftr c 12) 63);
          Z.lor 128 (Z.land (Z.shiftr c 6) 63); Z.lor 128 (Z.land c 63)]
  else None.

Fixpoint encode_utf8 (s : pystr) : option bytes :=
  match s with
  | [] => Some []
  | c :: s' =>
      match utf8_char c, encode_utf8 s' with
      | Some b, Some bs => Some (b ++ bs)
      | _, _ => None
      end
  end.

(** [s.encode('utf-8')]: raises [UnicodeEncodeError] on a lone surrogate. *)
Definition encode (s : pystr) : result bytes :=
  of_option UnicodeEncodeError (encode_utf8 s).

(** A code point that the strict UTF-8 codec accepts. *)
Definition utf8_ok (c : Z) : bool :=
  (0 <=? c) && (c <=? 1114111) && negb ((55296 <=? c) && (c <=? 57343)).

(** A string every code point of which is encodable. *)
Definition utf8_all (s : pystr) : Prop := Forall (fun c => utf8_ok c = true) s.

(** ** [bytes.hex()] *)

Definition hex_digit (n : Z) : Z := if n <? 10 then 48 + n else 87 + n.

Fixpoint bytes_hex (b : bytes) : pystr :=
  match b with
  | [] => []
  | x :: b' => hex_digit (Z.shiftr x 4) :: hex_digit (Z.land x 15) :: bytes_hex b'
  end.

(** ** [str(n)] for a non-negative [int], and zero padding of strftime *)

Fixpoint digits_rev (fuel : nat) (n : Z) : pystr :=
  match fuel with
  | O => []
  | S f => if n <? 10 then [48 + n] else (48 + n mod 10) :: digits_rev f (n / 10)
  end.

Definition str_int (n : Z) : pystr :=
  if n <? 0 then 45 :: rev (digits_rev 64 (- n)) else rev (digits_rev 64 n).

Definition zpad (w : nat) (n : Z) : pystr :=
  let d := str_int n in repeat 48 (w - List.length d) ++ d.

(** ** [datetime.date] as its proleptic Gregorian ordinal *)

Definition MINORD : Z := 1.          (* date(1, 1, 1).toordinal() *)
Definition MAXORD : Z := 3652059.    (* date(9999, 12, 31).toordinal() *)

(** [datetime.timedelta(days=n)]; the constructor refuses
    |days| > 999999999. *)
Definition timedelta (n : Z) : result Z :=
  if Z.abs n <=? 999999999 then Ok n else Err OverflowError.

(** [date + td] and [date - td]: [OverflowError] outside [MINORD, MAXORD]. *)
Definition date_add (d td : Z) : result Z :=
  if (MINORD <=? d + td) && (d + td <=? MAXORD) then Ok (d + td)
  else Err OverflowError.

Definition date_sub (d td : Z) : result Z := date_add d (- td).

(** Civil date of an ordinal: the days-from-civil inverse on 0000-03-01
    based eras (ordinal 1 is 0001-01-01). *)
Definition civil_of_ordinal (o : Z) : Z * Z * Z :=
  let z := o + 305 in
  let era := z / 146097 in
  let doe := z - era * 146097 in
  let yoe := (doe - doe / 1460 + doe / 36524 - doe / 146096) / 365 in
  let doy := doe - (365 * yoe + yoe / 4 - yoe / 100) in
  let mp := (5 * doy + 2) / 153 in
  let d := doy - (153 * mp + 2) / 5 + 1 in
  let m := if mp <? 10 then mp + 3 else mp - 9 in
  let y := yoe + era * 400 + (if m <=? 2 then 1 else 0) in
  (y, m, d).

(** Ordinal of a civil date (inverse of [civil_of_ordinal]). *)
Definition ordinal_of_civil (y m d : Z) : Z :=
  let y' := if m <=? 2 then y - 1 else y in
  let era := y' / 400 in
  let yoe := y' - era * 400 in
  let mp := if m >? 2 then m - 3 else m + 9 in
  let doy := (153 * mp + 2) / 5 + d - 1 in
  let doe := yoe * 365 + yoe / 4 - yoe / 100 + doy in
  era * 146097 + doe - 305.

(** [date.strftime('%Y%m%d')] (years 1000..9999 are four digits wide). *)
Definition strftime_ymd (o : Z) : pystr :=
  let '(y, m, d) := civil_of_ordinal o in zpad 4 y ++ zpad 2 m ++ zpad 2 d.

(** ** [urllib.parse.quote(s)] with the default [safe='/'] *)

Definition quote_safe (b : Z) : bool :=
  ((65 <=? b) && (b <=? 90)) || ((97 <=? b) && (b <=? 122)) ||
  ((48 <=? b) && (b <=? 57)) || (b =? 95) || (b =? 46) || (b =? 45) ||
  (b =? 126) || (b =? 47).

Definition hex_upper (n : Z) : Z := if n <? 10 then 48 + n else 55 + n.

Definition quote_byte (b : Z) : pystr :=
  if quote_safe b then [b] else [37; hex_upper (Z.shiftr b 4); hex_upper (Z.land b 15)].

Definition quote (s : pystr) : result pystr :=
  b <-? encode s ;; Ok (flat_map quote_byte b).

(** ** The program state: clock reads and built requests *)

Record St := mkSt {
  today_reads : nat;        (* calls of datetime.date.today() so far *)
  utc_reads : nat;          (* calls of datetime.datetime.utcnow() so far *)
  built : list pystr        (* canonical queries of the requests create_request built *)
}.

Definition M (A : Type) := St -> St * result A.

Definition ret {A} (a : A) : M A := fun s => (s, Ok a).

Definition bind {A B} (m : M A) (k : A -> M B) : M B :=
  fun s => match m s with
           | (s', Ok a) => k a s'
           | (s', Err e) => (s', Err e)
           end.

Definition raise {A} (e : pyerr) : M A := fun s => (s, Err e).

Definition lift {A} (r : result A) : M A := fun s => (s, r).

Notation "x <- m ;; k" := (bind m (fun x => k))
  (at level 61, m at next level, right associativity).

Definition MAX_SEARCH_RANGE : Z := 31.

Section Clock.

(** [today_at n] is the ordinal returned by the n-th call of
    [datetime.date.today()]; [utc_at n] the instant (microseconds since the
    epoch) returned by the n-th call of [datetime.datetime.utcnow()]. *)
Variable today_at : nat -> Z.
Variable utc_at : nat -> Z.

Definition date_today : M Z :=
  fun s => (mkSt (S (today_reads s)) (utc_reads s) (built s),
            Ok (today_at (today_reads s))).

Definition utcnow : M Z :=
  fun s => (mkSt (today_reads s) (S (utc_reads s)) (built s),
            Ok (utc_at (utc_reads s))).

(** Recording the canonical query of a request [create_request] has built. *)
Definition emit (cq : pystr) : M unit :=
  fun s => (mkSt (today_reads s) (utc_reads s) (built s ++ [cq]), Ok tt).

(** ** AWIS.traffic_history (awis.py 98-141, awis/awis.py 107-146): the
    validation and the sub-query loop

    Both versions share this code up to the end of the loop; they differ in
    the exceptions raised for a bad range ([SearchRangeError] in awis.py,
    [ValueError] in the package; [err_small] is the first one,
    search_range < 1, [err_past] the second, "Cannot search past today's
    date") and in what the loop body does with each canonical query
    ([handle]): awis.py calls [self.create_request(canonical_query)] and
    appends the request to [reqs], the package appends the query to
    [queries].  What follows the loop (sending, parsing, merging) is
    modelled further on, in [traffic_history_module] and
    [traffic_history_package]. *)

Variable strptime : pystr -> option Z.   (* datetime.strptime(_, '%Y%m%d').date() *)

Section TrafficHistory.

Variables err_small err_past : pyerr.
Context {A : Type}.
Variable handle : pystr -> M A.

(** Lines 109-117 / 119-126: the effective start date. *)
Definition th_start (search_range : Z) (start_date : option pystr)
    (search_reverse : bool) : M Z :=
  date <- match start_date with
          | None => t <- date_today ;; td <- lift (timedelta search_range) ;;
                    lift (date_sub t td)
          | Some sd => lift (of_option (ValueError "time data does not match format")
                                       (strptime sd))
          end ;;
  if search_reverse then
    td <- lift (timedelta search_range) ;; lift (date_sub date td)
  else ret date.

(** The loop of lines 127-135 / 136-142; [k] counts the iterations left of
    [for i in range(num_requests)]; the result is the list [reqs] /
    [queries] built by the loop. *)
Fixpoint th_loop (k : nat) (i num_requests remainder date : Z) (url : pystr)
    : M (list A) :=
  match k with
  | O => ret []
  | S k' =>
      let instance_search_range :=
        if negb (i =? num_requests - 1) then MAX_SEARCH_RANGE else remainder in
      let str_date := strftime_ymd date in
      qurl <- lift (quote url) ;;
      let canonical_query :=
        lit "Action=TrafficHistory&Range=" ++ str_int instance_search_range ++
        lit "&ResponseGroup=History&Start=" ++ str_date ++ lit "&Url=" ++ qurl in
      x <- handle canonical_query ;;
      td <- lift (timedelta instance_search_range) ;;
      date' <- lift (date_add date td) ;;
      rest <- th_loop k' (i + 1) num_requests remainder date' url ;;
      ret (x :: rest)
  end.

(** Lines 108-135 / 118-142. *)
Definition traffic_history (url : pystr) (search_range : Z)
    (start_date : option pystr) (search_reverse : bool) : M (list A) :=
  if search_range <? 1 then raise err_small
  else
    date <- th_start search_range start_date search_reverse ;;
    td <- lift (timedelta search_range) ;;
    end_date <- lift (date_add date td) ;;
    t <- date_today ;;
    if t <=? end_date then raise err_past
    else
      let quotient := search_range / MAX_SEARCH_RANGE in
      let remainder := search_range mod MAX_SEARCH_RANGE in
      let num_requests := quotient + Z.min remainder 1 in
      th_loop (Z.to_nat num_requests) 0 num_requests remainder date url.

End TrafficHistory.

Definition SR_SMALL_MSG : string :=
  "search_range must be at least 1. Set search_reverse to True for searching backwards".
Definition SR_PAST_MSG : string := "Cannot search past today's date".

(** awis/awis.py lines 118-142: the loop collects the canonical queries
    ([queries.append(canonical_query)]). *)
Definition th_queries_package :=
  traffic_history (ValueError "search_range must be at least 1.") (ValueError SR_PAST_MSG) ret.

End Clock.

(** A concrete [strptime(s, '%Y%m%d')] for eight-digit stamps, used to run
    the model on examples. *)
Definition digit_val (c : Z) : option Z :=
  if (48 <=? c) && (c <=? 57) then Some (c - 48) else None.

Fixpoint digits_val (acc : Z) (s : pystr) : option Z :=
  match s with
  | [] => Some acc
  | c :: s' => match digit_val c with
               | Some v => digits_val (10 * acc + v) s'
               | None => None
               end
  end.

Definition strptime_ymd8 (s : pystr) : option Z :=
  if negb (Nat.eqb (List.length s) 8) then None else
  match digits_val 0 (firstn 4 s), digits_val 0 (firstn 2 (skipn 4 s)),
        digits_val 0 (skipn 6 s) with
  | Some y, Some m, Some d =>
      if (1 <=? m) && (m <=? 12) && (1 <=? d) && (d <=? 31)
      then Some (ordinal_of_civil y m d) else None
  | _, _, _ => None
  end.

Definition st0 : St := mkSt 0 0 [].

(** ** The AWIS instance: its attribute dictionary *)

Inductive pyval :=
| VStr (s : pystr)
| VStrSet (l : list pystr).

Definition attrs := list (string * pyval).

(** [getattr(self, name)]. *)
Fixpoint getattr (self : attrs) (name : string) : result pyval :=
  match self with
  | [] => Err (AttributeError name)
  | (n, v) :: rest => if String.eqb n name then Ok v else getattr rest name
  end.

Definition getattr_str (self : attrs) (name : string) : result pystr :=
  v <-? getattr self name ;;
  match v with VStr s => Ok s | VStrSet _ => Err TypeError end.

Definition ALGORITHM : pystr := lit "AWS4-HMAC-SHA256".
Definition SERVICE_NAME : pystr := lit "awis".
Definition SERVICE_HOST : pystr := lit "awis.amazonaws.com".
Definition SERVICE_URI : pystr := lit "/api".
Definition nl : pystr := [10].

Definition VALID_RESPONSE_GROUPS : list pystr :=
  [lit "RelatedLinks"; lit "Categories"; lit "Rank"; lit "RankByCountry";
   lit "UsageStats"; lit "AdultContent"; lit "Speed"; lit "Language";
   lit "OwnedDomains"; lit "LinksInCount"; lit "SiteData"].

(** awis.py, [AWIS.__init__] (lines 48-57); the unused [utcnow()] read of
    line 49 is not modelled. *)
Definition init_module (access_id secret_key : pystr) : attrs :=
  [("access_id"%string, VStr access_id); ("secret_access_key"%string, VStr secret_key);
   ("valid_response_groups"%string, VStrSet VALID_RESPONSE_GROUPS)].

(** awis/awis.py, [AWIS.__init__] (lines 56-64). *)
Definition init_package (access_id secret_key service_region : pystr) : attrs :=
  [("access_id"%string, VStr access_id); ("secret_access_key"%string, VStr secret_key);
   ("SERVICE_REGION"%string, VStr service_region);
   ("SERVICE_ENDPOINT"%string, VStr (lit "awis." ++ service_region ++ lit ".amazonaws.com"));
   ("AWS_BASE_URL"%string, VStr (lit "https://" ++ SERVICE_HOST ++ SERVICE_URI))].

(** awis.py module constants (lines 36-41). *)
Definition M_SERVICE_ENDPOINT : pystr := lit "awis.us-west-1.amazonaws.com".
Definition M_SERVICE_REGION : pystr := lit "us-west-1".
Definition M_AWS_BASE_URL : pystr := lit "https://" ++ SERVICE_HOST ++ SERVICE_URI.

(** ** Time stamps *)

Definition USEC_PER_DAY : Z := 86400000000.
Definition EPOCH_ORD : Z := 719163.   (* date(1970, 1, 1).toordinal() *)

(** [now.strftime('%Y%m%dT%H%M%SZ')] for an instant in microseconds. *)
Definition strftime_amz (t : Z) : pystr :=
  let sod := (t mod USEC_PER_DAY) / 1000000 in
  strftime_ymd (EPOCH_ORD + t / USEC_PER_DAY) ++ lit "T" ++
  zpad 2 (sod / 3600) ++ zpad 2 ((sod mod 3600) / 60) ++ zpad 2 (sod mod 60) ++ lit "Z".

(** [now.strftime(DATE_STAMP_FORMAT)]. *)
Definition strftime_ds (t : Z) : pystr := strftime_ymd (EPOCH_ORD + t / USEC_PER_DAY).

(** An HTTP request as handed to [requests.get] / [grequests.get]. *)
Record Request := mkRequest {
  req_method : string;
  req_url : pystr;
  req_headers : list (string * pystr)
}.

(** A [requests.Response], of which the code reads [.content]. *)
Record Response := mkResponse {
  content : bytes
}.

Section Signer.

(** [hashlib.sha256(b).digest()] and [hmac.new(key, msg, hashlib.sha256).digest()]. *)
Variable sha256_digest : bytes -> bytes.
Variable hmac_digest : bytes -> bytes -> bytes.

(** [AWIS.get_signature_key] (awis.py 59-78, awis/awis.py 66-88). *)
Definition get_signature_key (secret_access_key datestamp region_name service_name : pystr)
    : result bytes :=
  datestamp <-? encode datestamp ;;
  region_name <-? encode region_name ;;
  service_name <-? encode service_name ;;
  k_secret <-? encode (lit "AWS4" ++ secret_access_key) ;;
  let k_date := hmac_digest k_secret datestamp in
  let k_region := hmac_digest k_date region_name in
  let k_service := hmac_digest k_region service_name in
  let k_signing := hmac_digest k_service (lit "aws4_request") in
  Ok k_signing.

(** [AWIS.sha256]: hex digest of the UTF-8 encoding. *)
Definition sha256 (text_to_hash : pystr) : result pystr :=
  b <-? encode text_to_hash ;; Ok (bytes_hex (sha256_digest b)).

(** [AWIS.hmac_sha256(data, key)]. *)
Definition hmac_sha256 (data key : bytes) : bytes := hmac_digest key data.

(** [self.hmac_sha256(string_to_sign.encode('utf-8'), signing_key).hex()]
    (awis.py 181, awis/awis.py 188). *)
Definition signature_of (string_to_sign : pystr) (signing_key : bytes) : result pystr :=
  sts <-? encode string_to_sign ;; Ok (bytes_hex (hmac_sha256 sts signing_key)).

(** [AWIS.create_request] after its two clock reads: the body of lines
    173-195 (awis.py) / 180-201 (awis/awis.py), given the endpoint, region
    and base URL it reads (module constants in awis.py, instance attributes
    in the package). *)
Definition sign_request (endpoint region base_url access_id secret : pystr)
    (amz ds canonical_query : pystr) : result Request :=
  let canonical_headers := lit "host:" ++ endpoint ++ nl ++ lit "x-amz-date:" ++ amz ++ nl in
  let signed_headers := lit "host;x-amz-date" in
  payload_hash <-? sha256 [] ;;
  let canonical_request :=
    lit "GET" ++ nl ++ SERVICE_URI ++ nl ++ canonical_query ++ nl ++ canonical_headers ++ nl ++
    signed_headers ++ nl ++ payload_hash in
  let credential_scope := ds ++ lit "/" ++ region ++ lit "/" ++ SERVICE_NAME ++ lit "/aws4_request" in
  h <-? sha256 canonical_request ;;
  let string_to_sign := ALGORITHM ++ nl ++ amz ++ nl ++ credential_scope ++ nl ++ h in
  signing_key <-? get_signature_key secret ds region SERVICE_NAME ;;
  signature <-? signature_of string_to_sign signing_key ;;
  let uri := base_url ++ lit "?" ++ canonical_query in
  let authorisation :=
    ALGORITHM ++ lit " Credential=" ++ access_id ++ lit "/" ++ credential_scope ++
    lit ", SignedHeaders=" ++ signed_headers ++ lit ", Signature=" ++ signature in
  Ok (mkRequest "GET" uri
        [("Accept"%string, lit "application/xml"); ("Content-Type"%string, lit "application/xml");
         ("X-Amz-Date"%string, amz); ("Authorization"%string, authorisation)]).

Variable utc_at : nat -> Z.
Let now := utcnow utc_at.

(** [AWIS.amz_date()] and the property [AWIS.date_stamp]: each reads the clock. *)
Definition amz_date : M pystr := t <- now ;; ret (strftime_amz t).
Definition date_stamp : M pystr := t <- now ;; ret (strftime_ds t).

(** [AWIS.create_request] of awis.py (lines 170-186). *)
Definition create_request_module (self : attrs) (canonical_query : pystr) : M Request :=
  amz <- amz_date ;;
  ds <- date_stamp ;;
  access_id <- lift (getattr_str self "access_id") ;;
  secret <- lift (getattr_str self "secret_access_key") ;;
  req <- lift (sign_request M_SERVICE_ENDPOINT M_SERVICE_REGION M_AWS_BASE_URL
                            access_id secret amz ds canonical_query) ;;
  _ <- emit canonical_query ;;
  ret req.

(** [AWIS.create_request] of awis/awis.py (lines 177-200): the request it
    hands to [requests.get]. *)
Definition prepare_request_package (self : attrs) (canonical_query : pystr) : M Request :=
  amz <- amz_date ;;
  ds <- date_stamp ;;
  endpoint <- lift (getattr_str self "SERVICE_ENDPOINT") ;;
  region <- lift (getattr_str self "SERVICE_REGION") ;;
  secret <- lift (getattr_str self "secret_access_key") ;;
  base_url <- lift (getattr_str self "AWS_BASE_URL") ;;
  access_id <- lift (getattr_str self "access_id") ;;
  req <- lift (sign_request endpoint region base_url access_id secret amz ds canonical_query) ;;
  _ <- emit canonical_query ;;
  ret req.

(** [requests.get(uri, headers=request_properties)] sends the request and
    waits for the answer: the network, an effect on the state that may fail
    in any way. *)
Variable requests_get : Request -> M Response.

(** [AWIS.create_request] of awis/awis.py (lines 177-201); the [session]
    argument is not used by the code. *)
Definition create_request_package (self : attrs) (canonical_query : pystr) : M Response :=
  req <- prepare_request_package self canonical_query ;;
  requests_get req.

(** [AWIS.bulk_request] of awis/awis.py (lines 148-153): [create_request]
    for each query, the answers in the order of the queries.  The eight
    threads of the pool are modelled as running the calls one after the
    other, in that order; [p.get()] re-raises the exception of a failed
    call. *)
Fixpoint bulk_request (self : attrs) (queries : list pystr) : M (list Response) :=
  match queries with
  | [] => ret []
  | q :: rest =>
      r <- create_request_package self q ;;
      rs <- bulk_request self rest ;;
      ret (r :: rs)
  end.

(** awis.py lines 108-135: the validation and the loop, whose body calls
    [self.create_request(canonical_query)]; the result is [reqs]. *)
Definition th_requests_module (today_at : nat -> Z) (strptime : pystr -> option Z)
    (self : attrs) : pystr -> Z -> option pystr -> bool -> M (list Request) :=
  traffic_history today_at strptime (SearchRangeError SR_SMALL_MSG) (SearchRangeError SR_PAST_MSG)
    (create_request_module self).

(** ** AWIS.url_info *)

(** The [response_groups] argument: a re-iterable collection (list, tuple,
    set) or a one-shot iterator (a generator), which the first pass
    exhausts. *)
Inductive pyiter :=
| IterList (l : list pystr)
| IterGen (l : list pystr).

(** One pass over the iterable: its items, and the iterable afterwards. *)
Definition iterate (it : pyiter) : list pystr * pyiter :=
  match it with
  | IterList l => (l, IterList l)
  | IterGen l => (l, IterGen [])
  end.

Fixpoint join (sep : pystr) (l : list pystr) : pystr :=
  match l with
  | [] => []
  | [x] => x
  | x :: rest => x ++ sep ++ join sep rest
  end.

Definition pystr_eqb (a b : pystr) : bool :=
  if list_eq_dec Z.eq_dec a b then true else false.

(** [set(xs) <= valid] *)
Definition subset (xs valid : list pystr) : bool :=
  forallb (fun x => existsb (pystr_eqb x) valid) xs.

(** The lines shared by both versions up to the canonical query
    (awis.py 88-93, awis/awis.py 98-103). *)
Definition url_info_query (self : attrs) (url : pystr) (response_groups : pyiter)
    : M pystr :=
  let '(items, response_groups) := iterate response_groups in
  let str_response_groups := join (lit ",") items in
  valid <- lift (getattr self "valid_response_groups") ;;
  match valid with
  | VStr _ => raise TypeError
  | VStrSet valid =>
      let '(items', _) := iterate response_groups in
      if negb (subset items' valid) then raise (NameError "Not all response groups are valid")
      else
        qrg <- lift (quote str_response_groups) ;;
        qurl <- lift (quote url) ;;
        ret (lit "Action=urlInfo&ResponseGroup=" ++ qrg ++ lit "&Url=" ++ qurl)
  end.

(** awis.py: [request = self.create_request(canonical_query)]; the network
    call and [parse_url_info] (which returns the bytes unchanged) follow and
    are not modelled: the result is the built request. *)
Definition url_info_module (self : attrs) (url : pystr) (response_groups : pyiter)
    : M Request :=
  canonical_query <- url_info_query self url response_groups ;;
  create_request_module self canonical_query.

(** awis/awis.py: [response = self.request(canonical_query)]; the package
    class defines no method [request]. *)
Definition url_info_package (self : attrs) (url : pystr) (response_groups : pyiter)
    : M Request :=
  canonical_query <- url_info_query self url response_groups ;;
  raise (AttributeError "request").

End Signer.

(** ** AWIS.parse_traffic_history (awis/awis.py 155-170)

    An lxml element: its tag in Clark notation ("{namespace}local"), its
    [.text] ([None] when it has none) and its children. *)
Local Set Warnings "-register-all".
Inductive element := Elem (tag : pystr) (text : option pystr) (children : list element).

Definition tag (e : element) : pystr := let '(Elem t _ _) := e in t.
Definition text (e : element) : option pystr := let '(Elem _ x _) := e in x.
Definition children (e : element) : list element := let '(Elem _ _ cs) := e in cs.

(** [e.iter(t)]: [e] and its descendants in document order whose tag is [t]. *)
Fixpoint iter_tag (t : pystr) (e : element) : list element :=
  let '(Elem t' _ cs) := e in
  (if pystr_eqb t' t then [e] else []) ++ flat_map (iter_tag t) cs.

(** [e.find(t)]: the first child with tag [t]. *)
Definition find_child (e : element) (t : pystr) : option element :=
  List.find (fun c => pystr_eqb (tag c) t) (children e).

(** [e.find('a/b')]: the first [b] child of an [a] child of [e]. *)
Definition find_path2 (e : element) (a b : pystr) : option element :=
  List.find (fun c => pystr_eqb (tag c) b)
            (flat_map children (filter (fun c => pystr_eqb (tag c) a) (children e))).

Definition aws_tag : pystr := lit "{http://awis.amazonaws.com/doc/2005-07-11}".

Section Parser.

(** [float] values and the builtins [int(s)] and [float(s)] on a string
    ([None]: [ValueError]). *)
Variable pyfloat : Type.
Variable py_int : pystr -> option Z.
Variable py_float : pystr -> option pyfloat.
(** [ET.parse(BytesIO(content)).getroot()] ([None]: [XMLSyntaxError]). *)
Variable et_parse : bytes -> option element.

(** The namedtuple [TrafficHistory]; [.text] of [Date] may be [None]. *)
Record TrafficHistory := mkTrafficHistory {
  th_date : option pystr;
  page_view_per_million : Z;
  page_view_per_user : pyfloat;
  th_rank : Z;
  th_reach : Z
}.

(** Attribute access [x.text] / [x.find] on the result of [find]:
    [AttributeError] on [None]. *)
Definition some_or_attr {A} (name : string) (o : option A) : result A :=
  of_option (AttributeError name) o.

(** [int(x)] / [float(x)]: [None] is a [TypeError], a bad literal a
    [ValueError]. *)
Definition int_of_text (x : option pystr) : result Z :=
  match x with
  | None => Err TypeError
  | Some s => of_option (ValueError "invalid literal for int()") (py_int s)
  end.

Definition float_of_text (x : option pystr) : result pyfloat :=
  match x with
  | None => Err TypeError
  | Some s => of_option (ValueError "could not convert string to float") (py_float s)
  end.

(** The body of the loop (lines 162-168). *)
Definition parse_data (element : element) : result TrafficHistory :=
  date_el <-? some_or_attr "text" (find_child element (aws_tag ++ lit "Date")) ;;
  let date := text date_el in
  pageview_el <-? some_or_attr "find" (find_child element (aws_tag ++ lit "PageViews")) ;;
  pmil_el <-? some_or_attr "text" (find_child pageview_el (aws_tag ++ lit "PerMillion")) ;;
  pageview_pmil <-? int_of_text (text pmil_el) ;;
  puser_el <-? some_or_attr "text" (find_child pageview_el (aws_tag ++ lit "PerUser")) ;;
  pageview_puser <-? float_of_text (text puser_el) ;;
  rank_el <-? some_or_attr "text" (find_child element (aws_tag ++ lit "Rank")) ;;
  rank <-? int_of_text (text rank_el) ;;
  reach_el <-? some_or_attr "text"
                 (find_path2 element (aws_tag ++ lit "Reach") (aws_tag ++ lit "PerMillion")) ;;
  reach <-? int_of_text (text reach_el) ;;
  Ok (mkTrafficHistory date pageview_pmil pageview_puser rank reach).

Fixpoint parse_all (els : list element) : result (list TrafficHistory) :=
  match els with
  | [] => Ok []
  | e :: rest => r <-? parse_data e ;; rs <-? parse_all rest ;; Ok (r :: rs)
  end.

Definition parse_traffic_history (content : bytes) : result (list TrafficHistory) :=
  root <-? of_option XMLSyntaxError (et_parse content) ;;
  parse_all (iter_tag (aws_tag ++ lit "Data") root).

(** The spec's reading: every element of the document in document order,
    and the [Data] elements among them. *)
Fixpoint preorder (e : element) : list element :=
  e :: flat_map preorder (children e).

Definition data_elements (root : element) : list element :=
  filter (fun e => pystr_eqb (tag e) (aws_tag ++ lit "Data")) (preorder root).

(** The record the spec assigns to a [Data] element: [Date] as the text,
    [PageViews/PerMillion], [PageViews/PerUser], [Rank] and
    [Reach/PerMillion] converted by [int] / [float]. *)
Definition record_of_data (d : element) (r : TrafficHistory) : Prop :=
  (exists de, find_child d (aws_tag ++ lit "Date") = Some de /\ th_date r = text de) /\
  (exists pv pm s, find_child d (aws_tag ++ lit "PageViews") = Some pv /\
     find_child pv (aws_tag ++ lit "PerMillion") = Some pm /\ text pm = Some s /\
     py_int s = Some (page_view_per_million r)) /\
  (exists pv pu s, find_child d (aws_tag ++ lit "PageViews") = Some pv /\
     find_child pv (aws_tag ++ lit "PerUser") = Some pu /\ text pu = Some s /\
     py_float s = Some (page_view_per_user r)) /\
  (exists rk s, find_child d (aws_tag ++ lit "Rank") = Some rk /\ text rk = Some s /\
     py_int s = Some (th_rank r)) /\
  (exists rc s, find_path2 d (aws_tag ++ lit "Reach") (aws_tag ++ lit "PerMillion") = Some rc /\
     text rc = Some s /\ py_int s = Some (th_reach r)).

End Parser.

(** A [Data] element lacking a child that the loop body dereferences:
    [Date], [PageViews], [PageViews/PerMillion], [PageViews/PerUser],
    [Rank] or [Reach/PerMillion]. *)
Definition missing_required_child (d : element) : Prop :=
  find_child d (aws_tag ++ lit "Date") = None \/
  find_child d (aws_tag ++ lit "PageViews") = None \/
  (exists pv, find_child d (aws_tag ++ lit "PageViews") = Some pv /\
     (find_child pv (aws_tag ++ lit "PerMillion") = None \/
      find_child pv (aws_tag ++ lit "PerUser") = None)) \/
  find_child d (aws_tag ++ lit "Rank") = None \/
  find_path2 d (aws_tag ++ lit "Reach") (aws_tag ++ lit "PerMillion") = None.

(** A [Data] element as the service sends it. *)
Definition data_fixture (ns : pystr) (date pmil puser rank reach : string) : element :=
  Elem (ns ++ lit "Data") None
    [Elem (ns ++ lit "Date") (Some (lit date)) [];
     Elem (ns ++ lit "PageViews") None
       [Elem (ns ++ lit "PerMillion") (Some (lit pmil)) [];
        Elem (ns ++ lit "PerUser") (Some (lit puser)) []];
     Elem (ns ++ lit "Rank") (Some (lit rank)) [];
     Elem (ns ++ lit "Reach") None [Elem (ns ++ lit "PerMillion") (Some (lit reach)) []]].

(** A TrafficHistory response holding one [Data] element, with every tag in
    namespace [ns]. *)
Definition response_fixture (ns : pystr) : element :=
  Elem (ns ++ lit "TrafficHistoryResponse") None
    [Elem (ns ++ lit "Response") None
       [Elem (ns ++ lit "TrafficHistoryResult") None
          [Elem (ns ++ lit "Alexa") None
             [Elem (ns ++ lit "TrafficHistory") None
                [Elem (ns ++ lit "HistoricalData") None
                   [data_fixture ns "20200101" "1000" "2.5" "500" "900"]]]]]].

(** A response whose single [Data] element has no [Rank] child. *)
Definition response_no_rank (ns : pystr) : element :=
  Elem (ns ++ lit "TrafficHistoryResponse") None
    [Elem (ns ++ lit "Data") None
       [Elem (ns ++ lit "Date") (Some (lit "20200101")) [];
        Elem (ns ++ lit "PageViews") None
          [Elem (ns ++ lit "PerMillion") (Some (lit "1000")) [];
           Elem (ns ++ lit "PerUser") (Some (lit "2.5")) []];
        Elem (ns ++ lit "Reach") None [Elem (ns ++ lit "PerMillion") (Some (lit "900")) []]]].

(** Concrete [int()] for optionally signed decimal literals, used to run the
    parser on the fixture. *)
Definition py_int_dec (s : pystr) : option Z :=
  match s with
  | [] | [45] => None
  | 45 :: d => option_map Z.opp (digits_val 0 d)
  | _ => digits_val 0 s
  end.

Fixpoint split_dot (l : pystr) : pystr * pystr :=
  match l with
  | [] => ([], [])
  | c :: l' => if c =? 46 then ([], l') else let '(a, b) := split_dot l' in (c :: a, b)
  end.

(** Concrete [float()] for literals "digits.digits", as an exact decimal
    (mantissa, number of fraction digits). *)
Definition py_float_dec (s : pystr) : option (Z * nat) :=
  let '(a, b) := split_dot s in
  match a, digits_val 0 (a ++ b) with
  | [], _ | _, None => None
  | _, Some m => Some (m, List.length b)
  end.

(** ** SigV4 as the spec states it (§4.1), over byte strings *)

(** key0 = "AWS4" + secret; key1 = HMAC(key0, datestamp);
    key2 = HMAC(key1, region); key3 = HMAC(key2, service);
    signing_key = HMAC(key3, "aws4_request"). *)
Definition ref_signing_key (hmac : bytes -> bytes -> bytes)
    (secret datestamp region service : bytes) : bytes :=
  let key0 := lit "AWS4" ++ secret in
  let key1 := hmac key0 datestamp in
  let key2 := hmac key1 region in
  let key3 := hmac key2 service in
  hmac key3 (lit "aws4_request").

Definition HEX_LOWER : pystr := lit "0123456789abcdef".

(** Lowercase hexadecimal: two digits per byte, high nibble first. *)
Definition lower_hex (b : bytes) : pystr :=
  flat_map (fun x => [nth (Z.to_nat (x / 16)) HEX_LOWER 0; nth (Z.to_nat (x mod 16)) HEX_LOWER 0]) b.

Definition is_byte (b : Z) : Prop := 0 <= b < 256.

(** ** Concrete inputs used by the examples *)

Definition TODAY : Z := ordinal_of_civil 2026 10 14.

(** A clock that returns the same date at every read. *)
Definition today_fixed (d : Z) : nat -> Z := fun _ => d.

(** A clock whose date passes midnight after its first read. *)
Definition today_rollover : nat -> Z := fun n => match n with O => TODAY | _ => TODAY + 1 end.

Definition url_ex : pystr := lit "example.com".

(** Stand-ins for the digests, to run the request builder on examples
    (only the parts of a request that do not depend on them are read off). *)
Definition sha256_toy (b : bytes) : bytes := firstn 4 b.
Definition hmac_toy (key msg : bytes) : bytes := firstn 4 (key ++ msg).

(** A UTC clock whose second read falls just after midnight
    (1970-01-01T23:59:59.999999, then 1970-01-02T00:00:00). *)
Definition utc_midnight : nat -> Z :=
  fun n => match n with O => 86399999999 | _ => 86400000000 end.

(** A network that answers every request with an empty body. *)
Definition net_empty : Request -> M Response := fun _ st => (st, Ok (mkResponse [])).

(** ** Further code: percent-decoding, the dict results of awis.py *)

(** Reading back a value produced by [quote]: "%XX" (uppercase hex) is the
    byte 0xXX, any other character stands for itself. *)
Definition hex_val (c : Z) : option Z :=
  if (48 <=? c) && (c <=? 57) then Some (c - 48)
  else if (65 <=? c) && (c <=? 70) then Some (c - 55)
  else None.

Fixpoint unquote (s : pystr) : option bytes :=
  match s with
  | [] => Some []
  | c :: s' =>
      if c =? 37 then
        match s' with
        | h :: l :: rest =>
            match hex_val h, hex_val l, unquote rest with
            | Some a, Some b, Some bs => Some (16 * a + b :: bs)
            | _, _, _ => None
            end
        | _ => None
        end
      else option_map (cons c) (unquote s')
  end.

(** A well-formed percent-encoded value: every '%' starts an escape with two
    uppercase hexadecimal digits, every other character is unreserved or
    '/'. *)
Fixpoint well_escaped (q : pystr) : bool :=
  match q with
  | [] => true
  | c :: rest =>
      if c =? 37 then
        match rest with
        | h :: l :: rest' =>
            match hex_val h, hex_val l with
            | Some _, Some _ => well_escaped rest'
            | _, _ => false
            end
        | _ => false
        end
      else quote_safe c && well_escaped rest
  end.

(** A key of the dicts of awis.py: the [.text] of a [Date] element. *)
Definition key_eqb (a b : option pystr) : bool :=
  match a, b with
  | None, None => true
  | Some x, Some y => pystr_eqb x y
  | _, _ => false
  end.

Section ModuleParser.

Variable pyfloat : Type.
Variable py_int : pystr -> option Z.
Variable py_float : pystr -> option pyfloat.
Variable et_parse : bytes -> option element.

(** The value stored per date by awis.py (lines 157-162):
    {'PageViewPerMillion', 'PageViewPerUser', 'Rank', 'Reach'}. *)
Record DayStats := mkDayStats {
  ds_page_view_per_million : Z;
  ds_page_view_per_user : pyfloat;
  ds_rank : Z;
  ds_reach : Z
}.

(** A Python dict keyed by date, in insertion order. *)
Definition th_dict := list (option pystr * DayStats).

(** [d[k] = v]: an existing key keeps its place, a new one goes last. *)
Fixpoint dict_set (k : option pystr) (v : DayStats) (d : th_dict) : th_dict :=
  match d with
  | [] => [(k, v)]
  | (k', v') :: rest => if key_eqb k' k then (k', v) :: rest else (k', v') :: dict_set k v rest
  end.

(** [d.get(k)]. *)
Fixpoint dict_get (k : option pystr) (d : th_dict) : option DayStats :=
  match d with
  | [] => None
  | (k', v) :: rest => if key_eqb k' k then Some v else dict_get k rest
  end.

(** [d.update(e)]: the items of [e] set one after the other. *)
Definition dict_update (d e : th_dict) : th_dict :=
  fold_left (fun acc kv => dict_set (fst kv) (snd kv) acc) e d.

Definition stats_of (r : TrafficHistory pyfloat) : DayStats :=
  mkDayStats (page_view_per_million _ r) (page_view_per_user _ r) (th_rank _ r) (th_reach _ r).

(** The loop of awis.py 149-162: lines 150-155 are the body [parse_data] of
    the package (the same lookups and conversions in the same order), then
    [output[date] = {...}]. *)
Fixpoint parse_all_module (output : th_dict) (els : list element) : result th_dict :=
  match els with
  | [] => Ok output
  | e :: rest =>
      r <-? parse_data pyfloat py_int py_float e ;;
      parse_all_module (dict_set (th_date _ r) (stats_of r) output) rest
  end.

(** [AWIS.parse_traffic_history] of awis.py (lines 143-163). *)
Definition parse_traffic_history_module (content : bytes) : result th_dict :=
  root <-? of_option XMLSyntaxError (et_parse content) ;;
  parse_all_module [] (iter_tag (aws_tag ++ lit "Data") root).

(** awis.py 137-141: [parsed_responses] is a generator, so each response is
    parsed when the loop reaches it and merged with [output.update(d)]; a
    response is its [content], [None] standing for a missing response
    ([r.content] is then an [AttributeError]). *)
Fixpoint merge_parsed (output : th_dict) (responses : list (option bytes)) : result th_dict :=
  match responses with
  | [] => Ok output
  | r :: rest =>
      content <-? some_or_attr "content" r ;;
      d <-? parse_traffic_history_module content ;;
      merge_parsed (dict_update output d) rest
  end.

(** The last record of [rs] dated [k]. *)
Fixpoint last_with (k : option pystr) (rs : list (TrafficHistory pyfloat))
    : option (TrafficHistory pyfloat) :=
  match rs with
  | [] => None
  | r :: rest =>
      match last_with k rest with
      | Some x => Some x
      | None => if key_eqb (th_date _ r) k then Some r else None
      end
  end.

(** The value for [k] in the last dict of [ds] that has [k]. *)
Fixpoint last_get (k : option pystr) (ds : list th_dict) : option DayStats :=
  match ds with
  | [] => None
  | d :: rest =>
      match last_get k rest with
      | Some v => Some v
      | None => dict_get k d
      end
  end.

(** awis/awis.py 143-145: the list comprehension parses the content of
    every response in order, then [itertools.chain.from_iterable] joins the
    record lists. *)
Fixpoint parse_each (responses : list bytes) : result (list (list (TrafficHistory pyfloat))) :=
  match responses with
  | [] => Ok []
  | c :: rest =>
      p <-? parse_traffic_history pyfloat py_int py_float et_parse c ;;
      ps <-? parse_each rest ;;
      Ok (p :: ps)
  end.

Definition chain_parsed (responses : list bytes) : result (list (TrafficHistory pyfloat)) :=
  ps <-? parse_each responses ;; Ok (List.concat ps).

End ModuleParser.

(** ** AWIS.traffic_history, end to end *)

Section FullTrafficHistory.

Variable today_at : nat -> Z.
Variable utc_at : nat -> Z.
Variable strptime : pystr -> option Z.
Variable sha256_digest : bytes -> bytes.
Variable hmac_digest : bytes -> bytes -> bytes.
Variable pyfloat : Type.
Variable py_int : pystr -> option Z.
Variable py_float : pystr -> option pyfloat.
Variable et_parse : bytes -> option element.

(** [grequests.map(reqs, exception_handler=exception_handler)] (awis.py
    line 136) sends the requests and waits for them: the network, an effect
    on the state that may fail in any way.  Its result is the [.content] of
    each answer, [None] where it hands back no response. *)
Variable grequests_map : list Request -> M (list (option bytes)).

(** [AWIS.traffic_history] of awis.py (lines 98-141). *)
Definition traffic_history_module (self : attrs) (url : pystr) (search_range : Z)
    (start_date : option pystr) (search_reverse : bool) : M (th_dict pyfloat) :=
  reqs <- th_requests_module sha256_digest hmac_digest utc_at today_at strptime self
            url search_range start_date search_reverse ;;
  responses <- grequests_map reqs ;;
  lift (merge_parsed pyfloat py_int py_float et_parse [] responses).

Variable requests_get : Request -> M Response.

(** [AWIS.traffic_history] of awis/awis.py (lines 107-146). *)
Definition traffic_history_package (self : attrs) (url : pystr) (search_range : Z)
    (start_date : option pystr) (search_reverse : bool) : M (list (TrafficHistory pyfloat)) :=
  queries <- th_queries_package today_at strptime url search_range start_date search_reverse ;;
  bulk_responses <- bulk_request sha256_digest hmac_digest utc_at requests_get self queries ;;
  lift (chain_parsed pyfloat py_int py_float et_parse (map content bulk_responses)).

End FullTrafficHistory.

(** ** Properties of the traffic-history planner *)

Lemma th_start_built today_at strptime sr sd rev s0 :
  built (fst (th_start today_at strptime sr sd rev s0)) = built s0.
Proof.
  unfold th_start, bind, lift, ret, date_today.
  destruct sd as [sd|]; cbn.
  - destruct (of_option _ (strptime sd)); cbn; [|reflexivity].
    destruct rev; cbn; [|reflexivity].
    destruct (timedelta sr); cbn; [|reflexivity]. destruct (date_sub a a0); reflexivity.
  - destruct (timedelta sr); cbn; [|reflexivity].
    destruct (date_sub _ a); cbn; [|reflexivity].
    destruct rev; cbn; [|reflexivity].
    destruct (timedelta sr); cbn; [|reflexivity]. destruct (date_sub a0 a1); reflexivity.
Qed.

Lemma date_add_ok d td r : date_add d td = Ok r -> r = d + td.
Proof.
  unfold date_add. destruct (_ && _); congruence.
Qed.

Lemma date_add_err d td e : date_add d td = Err e -> e = OverflowError.
Proof.
  unfold date_add. destruct (_ && _); congruence.
Qed.

Lemma timedelta_ok n r : timedelta n = Ok r -> r = n.
Proof.
  unfold timedelta. destruct (_ <=? _); congruence.
Qed.

Lemma timedelta_err n e : timedelta n = Err e -> e = OverflowError.
Proof.
  unfold timedelta. destruct (_ <=? _); congruence.
Qed.

Section TrafficHistoryProofs.

Variable today_at : nat -> Z.
Variable strptime : pystr -> option Z.
Variables err_small err_past : pyerr.
Context {A : Type}.
Variable handle : pystr -> M A.

Let th := traffic_history today_at strptime err_small err_past handle.

(** The rejection of a window ending today or later, stated on the start
    date the code computed. *)
Lemma th_past_rejected url sr sd rev s0 s1 d :
  th_start today_at strptime sr sd rev s0 = (s1, Ok d) ->
  1 <= sr -> today_at (today_reads s1) <= d + sr ->
  exists s2 e, th url sr sd rev s0 = (s2, Err e) /\
               (e = err_past \/ e = OverflowError) /\ built s2 = built s0.
Proof.
  intros Hs Hsr Hle.
  pose proof (th_start_built today_at strptime sr sd rev s0) as Hb.
  rewrite Hs in Hb; cbn in Hb.
  unfold th, traffic_history.
  replace (sr <? 1) with false by (symmetry; apply Z.ltb_ge; lia).
  unfold bind at 1; rewrite Hs.
  unfold bind, lift, raise, date_today.
  destruct (timedelta sr) as [td|e] eqn:Htd.
  - apply timedelta_ok in Htd; subst td.
    destruct (date_add d sr) as [en|e] eqn:Hen.
    + apply date_add_ok in Hen; subst en.
      replace (today_at (today_reads s1) <=? d + sr) with true
        by (symmetry; apply Z.leb_le; lia).
      eexists _, _; split; [reflexivity|]. split; [left; reflexivity|]. exact Hb.
    + apply date_add_err in Hen; subst e.
      eexists _, _; split; [reflexivity|]. split; [right; reflexivity|]. exact Hb.
  - apply timedelta_err in Htd; subst e.
    eexists _, _; split; [reflexivity|]. split; [right; reflexivity|]. exact Hb.
Qed.

End TrafficHistoryProofs.

(** C9 (amended): with no explicit start date and a forward search, for
    every [search_range >= 1]: when both reads of [date.today()] return the
    same day, the call raises before any request is built, the
    "Cannot search past today's date" error when [today - search_range] is a
    representable date (the window then ends exactly today), an
    [OverflowError] otherwise; when the date rolls over between the two
    reads, the call passes validation and goes on to the request loop from
    [today - search_range].  This holds for the code shared by both
    versions, whatever the loop body does with the queries. *)
Theorem traffic_history_default_forward_rejected today_at strptime e1 e2 {A}
    (handle : pystr -> M A) url sr s0 :
  1 <= sr ->
  (today_at (S (today_reads s0)) = today_at (today_reads s0) ->
   MINORD <= today_at (today_reads s0) <= MAXORD ->
   exists s1,
     traffic_history today_at strptime e1 e2 handle url sr None false s0 =
       (s1, Err (if MINORD <=? today_at (today_reads s0) - sr then e2 else OverflowError)) /\
     built s1 = built s0) /\
  (MINORD <= today_at (today_reads s0) - sr ->
   today_at (today_reads s0) <= MAXORD ->
   today_at (today_reads s0) < today_at (S (today_reads s0)) ->
   traffic_history today_at strptime e1 e2 handle url sr None false s0 =
     th_loop handle (Z.to_nat (sr / MAX_SEARCH_RANGE + Z.min (sr mod MAX_SEARCH_RANGE) 1)) 0
       (sr / MAX_SEARCH_RANGE + Z.min (sr mod MAX_SEARCH_RANGE) 1) (sr mod MAX_SEARCH_RANGE)
       (today_at (today_reads s0) - sr) url
       (mkSt (S (S (today_reads s0))) (utc_reads s0) (built s0))).
Proof.
  intros Hsr. split.
  { intros Hsame Hrange.
    set (t := today_at (today_reads s0)) in *.
    unfold traffic_history.
    replace (sr <? 1) with false by (symmetry; apply Z.ltb_ge; lia).
    unfold th_start, bind, lift, ret, raise, date_today, timedelta, date_sub, date_add; cbn.
    fold t.
    destruct (Z.abs sr <=? 999999999) eqn:Ha.
    - destruct ((MINORD <=? t + - sr) && (t + - sr <=? MAXORD)) eqn:Hb.
      + apply andb_true_iff in Hb as [Hb1 Hb2]. apply Z.leb_le in Hb1.
        replace ((MINORD <=? t + - sr + sr) && (t + - sr + sr <=? MAXORD)) with true
          by (symmetry; apply andb_true_iff; split; apply Z.leb_le; lia).
        cbn [today_reads utc_reads built]. rewrite Hsame. fold t.
        replace (t <=? t + - sr + sr) with true by (symmetry; apply Z.leb_le; lia).
        replace (MINORD <=? t - sr) with true by (symmetry; apply Z.leb_le; lia).
        eexists; split; reflexivity.
      + replace (MINORD <=? t - sr) with false.
        * eexists; split; reflexivity.
        * symmetry; apply Z.leb_gt.
          apply andb_false_iff in Hb as [Hb|Hb]; apply Z.leb_gt in Hb; unfold MINORD, MAXORD in *; lia.
    - replace (MINORD <=? t - sr) with false.
      + eexists; split; reflexivity.
      + symmetry; apply Z.leb_gt. apply Z.leb_gt in Ha. unfold MINORD, MAXORD in *; lia.
  }
  - intros Hlo Hhi Hroll.
    set (t := today_at (today_reads s0)) in *.
    unfold traffic_history.
    replace (sr <? 1) with false by (symmetry; apply Z.ltb_ge; lia).
    unfold th_start, bind, lift, ret, raise, date_today, timedelta, date_sub, date_add; cbn.
    fold t.
    replace (Z.abs sr <=? 999999999) with true
      by (symmetry; apply Z.leb_le; unfold MINORD, MAXORD in *; lia).
    replace ((MINORD <=? t + - sr) && (t + - sr <=? MAXORD)) with true
      by (symmetry; apply andb_true_iff; split; apply Z.leb_le; unfold MINORD, MAXORD in *; lia).
    replace ((MINORD <=? t + - sr + sr) && (t + - sr + sr <=? MAXORD)) with true
      by (symmetry; apply andb_true_iff; split; apply Z.leb_le; unfold MINORD, MAXORD in *; lia).
    cbn [today_reads utc_reads built].
    replace (today_at (S (today_reads s0)) <=? t + - sr + sr) with false
      by (symmetry; apply Z.leb_gt; lia).
    replace (t + - sr) with (t - sr) by lia.
    reflexivity.
Qed.

Lemma traffic_history_default_forward_rejected_witness :
  exists s1,
    th_requests_module sha256_toy hmac_toy (fun _ => 0) (today_fixed TODAY) strptime_ymd8
      (init_module (lit "AKID") (lit "secret")) url_ex 31 None false st0 =
      (s1, Err (if MINORD <=? today_fixed TODAY (today_reads st0) - 31
                then SearchRangeError SR_PAST_MSG else OverflowError)) /\
    built s1 = built st0.
Proof.
  apply (proj1 (traffic_history_default_forward_rejected (today_fixed TODAY) strptime_ymd8
                  (SearchRangeError SR_SMALL_MSG) (SearchRangeError SR_PAST_MSG)
                  (create_request_module sha256_toy hmac_toy (fun _ => 0)
                     (init_module (lit "AKID") (lit "secret")))
                  url_ex 31 st0 ltac:(lia)));
    [reflexivity | split; vm_compute; congruence].
Defined.

Lemma traffic_history_default_forward_rollover_witness :
  th_queries_package today_rollover strptime_ymd8 url_ex 45 None false st0 =
  th_loop ret (Z.to_nat (45 / MAX_SEARCH_RANGE + Z.min (45 mod MAX_SEARCH_RANGE) 1)) 0
    (45 / MAX_SEARCH_RANGE + Z.min (45 mod MAX_SEARCH_RANGE) 1) (45 mod MAX_SEARCH_RANGE)
    (today_rollover (today_reads st0) - 45) url_ex
    (mkSt (S (S (today_reads st0))) (utc_reads st0) (built st0)).
Proof.
  apply (proj2 (traffic_history_default_forward_rejected today_rollover strptime_ymd8
                  (ValueError "search_range must be at least 1.") (ValueError SR_PAST_MSG)
                  ret url_ex 45 st0 ltac:(lia))); vm_compute; congruence.
Defined.

(** C9 counterexample: the claim fails when the date rolls over between the
    two reads of [date.today()] (the call then passes validation and
    awis.py builds a request for one canonical query), and for a
    [search_range] beyond the first representable date (an [OverflowError],
    not the search-range error). *)
Lemma traffic_history_default_forward_counterexample :
  built (fst (th_requests_module sha256_toy hmac_toy (fun _ => 0) today_rollover strptime_ymd8
                (init_module (lit "AKID") (lit "secret")) url_ex 1 None false st0)) =
    [lit "Action=TrafficHistory&Range=1&ResponseGroup=History&Start=20261013&Url=example.com"] /\
  snd (th_requests_module sha256_toy hmac_toy (fun _ => 0) (today_fixed TODAY) strptime_ymd8
         (init_module (lit "AKID") (lit "secret")) url_ex 1000000 None false st0) =
    Err OverflowError.
Proof. split; vm_compute; reflexivity. Qed.

(** C3: a [search_range < 1] is rejected at once, leaving the state (and so
    the requests built) unchanged; when the window end computed from the
    effective start date is on or after today (the date read at the check),
    the call raises (the search-range error, or [OverflowError] if the end
    date is past 9999-12-31) and no request has been built.  This holds for
    the code shared by both versions, whatever the loop body does with the
    queries: the loop, and so any request building or sending, is never
    reached. *)
Theorem traffic_history_validation today_at strptime err_small err_past {A}
    (handle : pystr -> M A) url sr sd rev s0 :
  (sr < 1 ->
   traffic_history today_at strptime err_small err_past handle url sr sd rev s0 =
     (s0, Err err_small)) /\
  (forall s1 d,
   th_start today_at strptime sr sd rev s0 = (s1, Ok d) ->
   1 <= sr -> today_at (today_reads s1) <= d + sr ->
   exists s2 e,
     traffic_history today_at strptime err_small err_past handle url sr sd rev s0 = (s2, Err e) /\
     (e = err_past \/ e = OverflowError) /\ built s2 = built s0).
Proof.
  split.
  - intros Hsr. unfold traffic_history.
    replace (sr <? 1) with true by (symmetry; apply Z.ltb_lt; exact Hsr). reflexivity.
  - intros s1 d Hs Hsr Hle. exact (th_past_rejected today_at strptime err_small err_past
                                        handle url sr sd rev s0 s1 d Hs Hsr Hle).
Qed.

Lemma traffic_history_validation_witness :
  th_requests_module sha256_toy hmac_toy (fun _ => 0) (today_fixed TODAY) strptime_ymd8
    (init_module (lit "AKID") (lit "secret")) url_ex 0 None false st0 =
    (st0, Err (SearchRangeError SR_SMALL_MSG)) /\
  exists s2 e,
    th_requests_module sha256_toy hmac_toy (fun _ => 0) (today_fixed TODAY) strptime_ymd8
      (init_module (lit "AKID") (lit "secret")) url_ex 10 (Some (lit "20261010")) false st0 =
      (s2, Err e) /\
    (e = SearchRangeError SR_PAST_MSG \/ e = OverflowError) /\ built s2 = built st0.
Proof.
  split.
  - apply (proj1 (traffic_history_validation (today_fixed TODAY) strptime_ymd8
                    (SearchRangeError SR_SMALL_MSG) (SearchRangeError SR_PAST_MSG)
                    (create_request_module sha256_toy hmac_toy (fun _ => 0)
                       (init_module (lit "AKID") (lit "secret")))
                    url_ex 0 None false st0)). lia.
  - apply (proj2 (traffic_history_validation (today_fixed TODAY) strptime_ymd8
                    (SearchRangeError SR_SMALL_MSG) (SearchRangeError SR_PAST_MSG)
                    (create_request_module sha256_toy hmac_toy (fun _ => 0)
                       (init_module (lit "AKID") (lit "secret")))
                    url_ex 10 (Some (lit "20261010")) false st0)
             (mkSt 0 0 []) (ordinal_of_civil 2026 10 10)).
    + vm_compute. reflexivity.
    + lia.
    + vm_compute. congruence.
Defined.

(** C1 (code defect): when [search_range] is an exact multiple of
    [MAX_SEARCH_RANGE] the last sub-query asks for [Range=0]: 62 days give
    sub-queries of 31 and 0 days, the default 31 gives one sub-query of 0
    days, in both versions; 45 days give 31 and 14 days.  In awis.py these
    are the queries of the requests [create_request] builds in the loop
    (their URLs end in them); the package's [traffic_history] hands them,
    in this order, to [bulk_request], whatever the network and the parser
    do. *)
Theorem traffic_history_exact_multiple_last_range_zero :
  built (fst (th_requests_module sha256_toy hmac_toy (fun _ => 0) (today_fixed TODAY)
                strptime_ymd8 (init_module (lit "AKID") (lit "secret")) url_ex 62
                (Some (lit "20200101")) false st0)) =
    [lit "Action=TrafficHistory&Range=31&ResponseGroup=History&Start=20200101&Url=example.com";
     lit "Action=TrafficHistory&Range=0&ResponseGroup=History&Start=20200201&Url=example.com"] /\
  match snd (th_requests_module sha256_toy hmac_toy (fun _ => 0) (today_fixed TODAY)
               strptime_ymd8 (init_module (lit "AKID") (lit "secret")) url_ex 62
               (Some (lit "20200101")) false st0) with
  | Ok reqs => map req_url reqs =
      [lit "https://awis.amazonaws.com/api?Action=TrafficHistory&Range=31&ResponseGroup=History&Start=20200101&Url=example.com";
       lit "https://awis.amazonaws.com/api?Action=TrafficHistory&Range=0&ResponseGroup=History&Start=20200201&Url=example.com"]
  | Err _ => False
  end /\
  snd (th_queries_package (today_fixed TODAY) strptime_ymd8 url_ex 62
         (Some (lit "20200101")) false st0) =
    Ok [lit "Action=TrafficHistory&Range=31&ResponseGroup=History&Start=20200101&Url=example.com";
        lit "Action=TrafficHistory&Range=0&ResponseGroup=History&Start=20200201&Url=example.com"] /\
  (forall pyfloat py_int py_float et_parse requests_get self,
   traffic_history_package (today_fixed TODAY) (fun _ => 0) strptime_ymd8 sha256_toy hmac_toy
     pyfloat py_int py_float et_parse requests_get self url_ex 62
     (Some (lit "20200101")) false st0 =
   (bulk_responses <- bulk_request sha256_toy hmac_toy (fun _ => 0) requests_get self
      [lit "Action=TrafficHistory&Range=31&ResponseGroup=History&Start=20200101&Url=example.com";
       lit "Action=TrafficHistory&Range=0&ResponseGroup=History&Start=20200201&Url=example.com"] ;;
    lift (chain_parsed pyfloat py_int py_float et_parse (map content bulk_responses)))
     (mkSt 1 0 [])) /\
  built (fst (th_requests_module sha256_toy hmac_toy (fun _ => 0) (today_fixed TODAY)
                strptime_ymd8 (init_module (lit "AKID") (lit "secret")) url_ex 31
                (Some (lit "20200101")) false st0)) =
    [lit "Action=TrafficHistory&Range=0&ResponseGroup=History&Start=20200101&Url=example.com"] /\
  built (fst (th_requests_module sha256_toy hmac_toy (fun _ => 0) (today_fixed TODAY)
                strptime_ymd8 (init_module (lit "AKID") (lit "secret")) url_ex 45
                (Some (lit "20200101")) false st0)) =
    [lit "Action=TrafficHistory&Range=31&ResponseGroup=History&Start=20200101&Url=example.com";
     lit "Action=TrafficHistory&Range=14&ResponseGroup=History&Start=20200201&Url=example.com"].
Proof.
  split; [vm_compute; reflexivity|].
  split; [vm_compute; reflexivity|].
  split; [vm_compute; reflexivity|].
  split; [|split; vm_compute; reflexivity].
  intros pyfloat py_int py_float et_parse requests_get self.
  unfold traffic_history_package. unfold bind at 1.
  replace (th_queries_package (today_fixed TODAY) strptime_ymd8 url_ex 62
             (Some (lit "20200101")) false st0)
    with (mkSt 1 0 [],
          @Ok (list pystr)
            [lit "Action=TrafficHistory&Range=31&ResponseGroup=History&Start=20200101&Url=example.com";
             lit "Action=TrafficHistory&Range=0&ResponseGroup=History&Start=20200201&Url=example.com"])
    by (vm_compute; reflexivity).
  reflexivity.
Qed.

(** ** Properties of the signer *)

Ltac zcases :=
  repeat match goal with
         | |- context [?a <? ?b] => destruct (Z.ltb_spec a b)
         | |- context [?a <=? ?b] => destruct (Z.leb_spec a b)
         end.

Lemma utf8_char_some c : (exists b, utf8_char c = Some b) <-> utf8_ok c = true.
Proof.
  unfold utf8_char, utf8_ok. zcases; cbn;
    split; intros Hx; try discriminate;
    try (match type of Hx with ex _ => destruct Hx as [b Hx]; discriminate end);
    try (eexists; reflexivity); exfalso; lia.
Qed.

Lemma encode_utf8_app a b :
  encode_utf8 (a ++ b) =
  match encode_utf8 a, encode_utf8 b with
  | Some x, Some y => Some (x ++ y)
  | _, _ => None
  end.
Proof.
  induction a as [|c a IH]; cbn.
  - destruct (encode_utf8 b); reflexivity.
  - rewrite IH. destruct (utf8_char c), (encode_utf8 a), (encode_utf8 b);
      try reflexivity. rewrite app_assoc. reflexivity.
Qed.

Lemma encode_utf8_some s :
  (exists b, encode_utf8 s = Some b) <-> Forall (fun c => utf8_ok c = true) s.
Proof.
  induction s as [|c s IH]; cbn.
  - split; [constructor | eexists; reflexivity].
  - rewrite Forall_cons_iff, <- IH, <- utf8_char_some.
    destruct (utf8_char c), (encode_utf8 s); split;
      try (intros [? H]; discriminate); try (intros [[? H1] [? H2]]; discriminate);
      intros _; repeat split; eexists; reflexivity.
Qed.

Lemma hex_digit_nth n : 0 <= n < 16 -> hex_digit n = nth (Z.to_nat n) HEX_LOWER 0.
Proof.
  intros Hn.
  assert (Hk : exists k, (k < 16)%nat /\ n = Z.of_nat k)
    by (exists (Z.to_nat n); split; lia).
  destruct Hk as [k [Hk ->]].
  do 16 (destruct k as [|k]; [reflexivity|]). lia.
Qed.

Lemma bytes_hex_lower b : Forall is_byte b -> bytes_hex b = lower_hex b.
Proof.
  unfold lower_hex.
  induction 1 as [|x b Hx _ IH]; cbn [bytes_hex flat_map app]; [reflexivity|].
  unfold is_byte in Hx.
  rewrite IH, (Z.shiftr_div_pow2 x 4) by lia.
  replace (Z.land x 15) with (x mod 16)
    by (symmetry; apply (Z.land_ones x 4); lia).
  rewrite !hex_digit_nth.
  - reflexivity.
  - apply Z.mod_pos_bound; lia.
  - change (2 ^ 4) with 16. split; [apply Z.div_pos | apply Z.div_lt_upper_bound]; lia.
Qed.

Lemma get_signature_key_eq hmac secret ds region service :
  get_signature_key hmac secret ds region service =
  match encode_utf8 secret, encode_utf8 ds, encode_utf8 region, encode_utf8 service with
  | Some bs, Some bd, Some br, Some bv => Ok (ref_signing_key hmac bs bd br bv)
  | _, _, _, _ => Err UnicodeEncodeError
  end.
Proof.
  unfold get_signature_key, encode, of_option, rbind.
  rewrite (encode_utf8_app (lit "AWS4") secret).
  change (encode_utf8 (lit "AWS4")) with (Some (lit "AWS4")).
  destruct (encode_utf8 secret), (encode_utf8 ds), (encode_utf8 region),
    (encode_utf8 service); reflexivity.
Qed.

(** C2 (amended): the signer is total on strings UTF-8 can encode, and
    raises [UnicodeEncodeError] on any other (a lone surrogate); on
    encodable inputs the signing key is the four-step HMAC chain over the
    UTF-8 bytes (key0 = "AWS4" + secret, then the date stamp, the region,
    the service and "aws4_request"), and the signature is the lowercase hex
    of HMAC(signing_key, string_to_sign). *)
Theorem get_signature_key_sigv4 hmac secret ds region service :
  (Forall (fun c => utf8_ok c = true) (secret ++ ds ++ region ++ service) ->
   exists k, get_signature_key hmac secret ds region service = Ok k) /\
  (~ Forall (fun c => utf8_ok c = true) (secret ++ ds ++ region ++ service) ->
   get_signature_key hmac secret ds region service = Err UnicodeEncodeError) /\
  (forall bs bd br bv,
   encode_utf8 secret = Some bs -> encode_utf8 ds = Some bd ->
   encode_utf8 region = Some br -> encode_utf8 service = Some bv ->
   get_signature_key hmac secret ds region service = Ok (ref_signing_key hmac bs bd br bv)) /\
  (forall key sts bsts,
   encode_utf8 sts = Some bsts -> Forall is_byte (hmac key bsts) ->
   signature_of hmac sts key = Ok (lower_hex (hmac key bsts))).
Proof.
  rewrite get_signature_key_eq.
  rewrite !Forall_app, <- !encode_utf8_some.
  split; [|split; [|split]].
  - intros [[bs Hs] [[bd Hd] [[br Hr] [bv Hv]]]].
    rewrite Hs, Hd, Hr, Hv. eexists; reflexivity.
  - intros Hn.
    destruct (encode_utf8 secret) as [bs|] eqn:Hs, (encode_utf8 ds) as [bd|] eqn:Hd,
      (encode_utf8 region) as [br|] eqn:Hr, (encode_utf8 service) as [bv|] eqn:Hv;
      try reflexivity.
    exfalso; apply Hn; repeat split; eexists; reflexivity.
  - intros bs bd br bv Hs Hd Hr Hv. rewrite Hs, Hd, Hr, Hv. reflexivity.
  - intros key sts bsts Hsts Hb.
    unfold signature_of, encode, of_option, rbind, hmac_sha256.
    rewrite Hsts, bytes_hex_lower by exact Hb. reflexivity.
Qed.

Lemma get_signature_key_sigv4_witness :
  (exists k, get_signature_key hmac_toy (lit "secret") (lit "20200101") (lit "us-west-1")
               (lit "awis") = Ok k) /\
  get_signature_key hmac_toy (lit "secret") (lit "20200101") (lit "us-west-1") (lit "awis") =
    Ok (ref_signing_key hmac_toy (lit "secret") (lit "20200101") (lit "us-west-1") (lit "awis")) /\
  signature_of hmac_toy (lit "sts") (lit "key") =
    Ok (lower_hex (hmac_toy (lit "key") (lit "sts"))).
Proof.
  destruct (get_signature_key_sigv4 hmac_toy (lit "secret") (lit "20200101")
              (lit "us-west-1") (lit "awis")) as [H1 [_ [H3 H4]]].
  split; [|split].
  - apply H1. apply Forall_forall, forallb_forall. reflexivity.
  - apply H3; reflexivity.
  - apply H4.
    + reflexivity.
    + apply Forall_forall. intros x Hx. vm_compute in Hx.
      repeat (destruct Hx as [<-|Hx]; [unfold is_byte; lia|]). destruct Hx.
Defined.

(** C2 counterexample: a secret key holding a lone surrogate makes
    [str.encode('utf-8')] raise, so the signer has an error condition. *)
Lemma get_signature_key_surrogate_counterexample :
  get_signature_key hmac_toy [55296] (lit "20200101") (lit "us-west-1") (lit "awis") =
    Err UnicodeEncodeError.
Proof. vm_compute. reflexivity. Qed.

(** ** Properties of the request builder *)

Lemma sign_request_shape sha hmac endpoint region base_url access secret amz ds cq req :
  sign_request sha hmac endpoint region base_url access secret amz ds cq = Ok req ->
  req_method req = "GET"%string /\ req_url req = base_url ++ lit "?" ++ cq /\
  In ("X-Amz-Date"%string, amz) (req_headers req).
Proof.
  unfold sign_request, rbind.
  destruct (sha256 sha []); [|discriminate].
  destruct (sha256 sha _); [|discriminate].
  destruct (get_signature_key hmac secret ds region SERVICE_NAME); [|discriminate].
  destruct (signature_of hmac _ _); [|discriminate].
  intros H; injection H as <-. cbn. repeat split. right; right; left; reflexivity.
Qed.

Lemma create_request_module_run sha hmac utc self cq s0 s1 req :
  create_request_module sha hmac utc self cq s0 = (s1, Ok req) ->
  exists access secret,
    sign_request sha hmac M_SERVICE_ENDPOINT M_SERVICE_REGION M_AWS_BASE_URL access secret
      (strftime_amz (utc (utc_reads s0))) (strftime_ds (utc (S (utc_reads s0)))) cq = Ok req /\
    built s1 = built s0 ++ [cq].
Proof.
  destruct s0 as [tr ur bl].
  cbv beta iota zeta delta [create_request_module amz_date date_stamp bind ret lift utcnow emit
                             utc_reads today_reads built].
  destruct (getattr_str self "access_id") as [access|]; [|congruence].
  destruct (getattr_str self "secret_access_key") as [secret|]; [|congruence].
  destruct (sign_request _ _ _ _ _ _ _ _ _ _) eqn:Hs; [|congruence].
  intros H; injection H as <- <-. exists access, secret.
  split; [first [exact Hs | reflexivity] | reflexivity].
Qed.

Lemma prepare_request_package_run sha hmac utc a s r cq s0 s1 req :
  prepare_request_package sha hmac utc (init_package a s r) cq s0 = (s1, Ok req) ->
  sign_request sha hmac (lit "awis." ++ r ++ lit ".amazonaws.com") r
    (lit "https://" ++ SERVICE_HOST ++ SERVICE_URI) a s
    (strftime_amz (utc (utc_reads s0))) (strftime_ds (utc (S (utc_reads s0)))) cq = Ok req /\
  built s1 = built s0 ++ [cq].
Proof.
  destruct s0 as [tr ur bl].
  cbv beta iota zeta delta [prepare_request_package amz_date date_stamp bind ret lift utcnow emit
                             utc_reads today_reads built init_package getattr_str getattr
                             String.eqb Ascii.eqb Bool.eqb rbind].
  destruct (sign_request _ _ _ _ _ _ _ _ _ _) eqn:Hs; [|congruence].
  intros H; injection H as <- <-. split; [first [exact Hs | reflexivity] | reflexivity].
Qed.

(** The package's [create_request] either fails before [requests.get] is
    called, or sends the request it prepared and returns what
    [requests.get] returns. *)
Lemma create_request_package_sends sha hmac utc requests_get self cq s0 s1 res :
  create_request_package sha hmac utc requests_get self cq s0 = (s1, res) ->
  (exists e, res = Err e /\ prepare_request_package sha hmac utc self cq s0 = (s1, Err e)) \/
  (exists s' req, prepare_request_package sha hmac utc self cq s0 = (s', Ok req) /\
                  requests_get req s' = (s1, res)).
Proof.
  unfold create_request_package, bind.
  destruct (prepare_request_package sha hmac utc self cq s0) as [s' [req|e]].
  - intros H. right. exists s', req. split; [reflexivity | exact H].
  - intros H; injection H as <- <-. left. exists e. split; reflexivity.
Qed.

(** C6 (amended): every request built by either version is a GET whose URL
    is [https://awis.amazonaws.com/api?] followed by the canonical query,
    whatever region the client was configured with: in awis.py the request
    [create_request] returns, in the package the request it hands to
    [requests.get] (which it calls only once that request is built). *)
Theorem create_request_url sha hmac utc cq s0 :
  (forall self s1 req,
   create_request_module sha hmac utc self cq s0 = (s1, Ok req) ->
   req_method req = "GET"%string /\ req_url req = lit "https://awis.amazonaws.com/api?" ++ cq) /\
  (forall requests_get a s r s1 res,
   create_request_package sha hmac utc requests_get (init_package a s r) cq s0 = (s1, res) ->
   (exists e, res = Err e /\
              prepare_request_package sha hmac utc (init_package a s r) cq s0 = (s1, Err e)) \/
   (exists s' req,
      prepare_request_package sha hmac utc (init_package a s r) cq s0 = (s', Ok req) /\
      requests_get req s' = (s1, res) /\
      req_method req = "GET"%string /\ req_url req = lit "https://awis.amazonaws.com/api?" ++ cq)).
Proof.
  split.
  - intros self s1 req H.
    destruct (create_request_module_run _ _ _ _ _ _ _ _ H) as [ac [se [Hs _]]].
    destruct (sign_request_shape _ _ _ _ _ _ _ _ _ _ _ Hs) as [Hm [Hu _]].
    split; [exact Hm|]. rewrite Hu. reflexivity.
  - intros requests_get a s r s1 res H.
    destruct (create_request_package_sends _ _ _ _ _ _ _ _ _ H) as [Hl | [s' [req [Hp Hg]]]].
    + left. exact Hl.
    + right. exists s', req. split; [exact Hp|]. split; [exact Hg|].
      destruct (prepare_request_package_run _ _ _ _ _ _ _ _ _ _ Hp) as [Hs _].
      destruct (sign_request_shape _ _ _ _ _ _ _ _ _ _ _ Hs) as [Hm [Hu _]].
      split; [exact Hm|]. rewrite Hu. reflexivity.
Qed.

Lemma create_request_url_witness :
  exists s1 res s' req,
    create_request_package sha256_toy hmac_toy (fun _ => 0) net_empty
      (init_package (lit "AKID") (lit "secret") (lit "eu-west-1")) (lit "Action=urlInfo") st0 =
      (s1, res) /\
    prepare_request_package sha256_toy hmac_toy (fun _ => 0)
      (init_package (lit "AKID") (lit "secret") (lit "eu-west-1")) (lit "Action=urlInfo") st0 =
      (s', Ok req) /\
    req_method req = "GET"%string /\
    req_url req = lit "https://awis.amazonaws.com/api?" ++ lit "Action=urlInfo".
Proof.
  destruct (create_request_package sha256_toy hmac_toy (fun _ => 0) net_empty
              (init_package (lit "AKID") (lit "secret") (lit "eu-west-1"))
              (lit "Action=urlInfo") st0) as [s1 res] eqn:E.
  destruct (proj2 (create_request_url sha256_toy hmac_toy (fun _ => 0) (lit "Action=urlInfo") st0)
              net_empty (lit "AKID") (lit "secret") (lit "eu-west-1") s1 res E)
    as [[e [_ Hp]] | [s' [req [Hp [_ [Hm Hu]]]]]].
  - vm_compute in Hp. discriminate Hp.
  - exists s1, res, s', req. split; [reflexivity|]. split; [exact Hp|]. split; [exact Hm | exact Hu].
Defined.

(** C6 counterexample: a client configured for region eu-west-1 hands
    [requests.get] a request for awis.amazonaws.com, not for
    awis.eu-west-1.amazonaws.com. *)
Lemma create_request_url_counterexample :
  option_map req_url (match snd (prepare_request_package sha256_toy hmac_toy (fun _ => 0)
      (init_package (lit "AKID") (lit "secret") (lit "eu-west-1")) (lit "Action=urlInfo") st0)
    with Ok r => Some r | Err _ => None end) =
    Some (lit "https://awis.amazonaws.com/api?Action=urlInfo") /\
  lit "https://awis.amazonaws.com/api?Action=urlInfo" <>
    lit "https://awis.eu-west-1.amazonaws.com/api?Action=urlInfo".
Proof. split; [vm_compute; reflexivity | discriminate]. Qed.

Lemma yoe_bounds doe : 0 <= doe <= 146096 ->
  0 <= (doe - doe / 1460 + doe / 36524 - doe / 146096) / 365 <= 399 /\
  0 <= doe - (365 * ((doe - doe / 1460 + doe / 36524 - doe / 146096) / 365) +
              (doe - doe / 1460 + doe / 36524 - doe / 146096) / 365 / 4 -
              (doe - doe / 1460 + doe / 36524 - doe / 146096) / 365 / 100) <= 365.
Proof. intros Hd. Z.div_mod_to_equations. lia. Qed.

(** [civil_of_ordinal] yields a valid civil date with a four-digit year,
    and [ordinal_of_civil] inverts it, on [MINORD, MAXORD]. *)
Lemma civil_round o : MINORD <= o <= MAXORD ->
  let '(y, m, d) := civil_of_ordinal o in
  1 <= y <= 9999 /\ 1 <= m <= 12 /\ 1 <= d <= 31 /\ ordinal_of_civil y m d = o.
Proof.
  unfold MINORD, MAXORD, civil_of_ordinal, ordinal_of_civil. intros Ho. cbv zeta.
  set (z := o + 305) in *.
  set (era := z / 146097) in *.
  assert (Hera : 0 <= era <= 24) by (unfold era, z; Z.div_mod_to_equations; lia).
  set (doe := z - era * 146097) in *.
  assert (Hdoe : 0 <= doe <= 146096) by (unfold doe, era; Z.div_mod_to_equations; lia).
  pose proof (yoe_bounds doe Hdoe) as Hyoe.
  set (yoe := (doe - doe / 1460 + doe / 36524 - doe / 146096) / 365) in *.
  set (doy := doe - (365 * yoe + yoe / 4 - yoe / 100)) in *.
  assert (Hz : z = era * 146097 + doe) by (unfold doe; lia).
  assert (Hdoy : doe = 365 * yoe + yoe / 4 - yoe / 100 + doy) by (unfold doy; lia).
  assert (Hz0 : z = o + 305) by reflexivity.
  clearbody doy yoe doe era z.
  set (mp := (5 * doy + 2) / 153) in *.
  assert (Hmp : 0 <= mp <= 11) by (unfold mp; Z.div_mod_to_equations; lia).
  assert (Hdd : 0 <= doy - (153 * mp + 2) / 5 <= 30) by (unfold mp; Z.div_mod_to_equations; lia).
  assert (Hmp' : 10 <= mp -> 306 <= doy) by (unfold mp; Z.div_mod_to_equations; lia).
  assert (Hmp'' : mp < 10 -> doy < 306) by (unfold mp; Z.div_mod_to_equations; lia).
  clearbody mp.
  rewrite !Z.gtb_ltb.
  repeat match goal with
         | |- context [if ?a <? ?b then _ else _] => destruct (Z.ltb_spec a b)
         | |- context [if ?a <=? ?b then _ else _] => destruct (Z.leb_spec a b)
         end;
    (split; [|split; [|split]]); try lia; Z.div_mod_to_equations; lia.
Qed.

Lemma digits_val_app acc l r :
  digits_val acc (l ++ r) = match digits_val acc l with Some a => digits_val a r | None => None end.
Proof.
  revert acc. induction l as [|c l IH]; intros acc; cbn [app digits_val]; [reflexivity|].
  destruct (digit_val c); [apply IH | reflexivity].
Qed.

Lemma digits_val_zeros k : digits_val 0 (repeat 48 k) = Some 0.
Proof. induction k as [|k IH]; [reflexivity | exact IH]. Qed.

Lemma digits_rev_val f n : 0 <= n < 10 ^ Z.of_nat f -> digits_val 0 (rev (digits_rev f n)) = Some n.
Proof.
  revert n. induction f as [|f IH]; intros n Hn.
  - cbn in Hn. cbn. f_equal. lia.
  - rewrite Nat2Z.inj_succ, Z.pow_succ_r in Hn by lia. cbn [digits_rev].
    destruct (Z.ltb_spec n 10).
    + cbn [rev app digits_val]. unfold digit_val.
      replace ((48 <=? 48 + n) && (48 + n <=? 57)) with true
        by (symmetry; apply andb_true_iff; split; apply Z.leb_le; lia).
      cbv beta iota. cbn [digits_val]. f_equal. lia.
    + cbn [rev]. rewrite digits_val_app, IH by (split; [apply Z.div_pos | apply Z.div_lt_upper_bound]; lia).
      pose proof (Z.mod_pos_bound n 10 ltac:(lia)).
      cbn [digits_val]. unfold digit_val.
      replace ((48 <=? 48 + n mod 10) && (48 + n mod 10 <=? 57)) with true
        by (symmetry; apply andb_true_iff; split; apply Z.leb_le; lia).
      cbv beta iota. cbn [digits_val]. f_equal. pose proof (Z.div_mod n 10 ltac:(lia)). lia.
Qed.

Lemma digits_rev_length f n k : 0 <= n < 10 ^ Z.of_nat k -> (1 <= k)%nat ->
  (List.length (digits_rev f n) <= k)%nat.
Proof.
  revert n k. induction f as [|f IH]; intros n k Hn Hk; cbn [digits_rev]; [cbn; lia|].
  destruct (Z.ltb_spec n 10); cbn [List.length]; [lia|].
  destruct k as [|[|k]]; [lia | cbn in Hn; lia|].
  rewrite (Nat2Z.inj_succ (S k)), Z.pow_succ_r in Hn by lia.
  enough (List.length (digits_rev f (n / 10)) <= S k)%nat by lia.
  apply IH; [split; [apply Z.div_pos | apply Z.div_lt_upper_bound]; lia | lia].
Qed.

Lemma zpad_spec w n : 0 <= n < 10 ^ Z.of_nat w -> (1 <= w <= 64)%nat ->
  List.length (zpad w n) = w /\ digits_val 0 (zpad w n) = Some n.
Proof.
  intros Hn Hw. unfold zpad, str_int.
  replace (n <? 0) with false by (symmetry; apply Z.ltb_ge; lia).
  pose proof (digits_rev_length 64 n w Hn (proj1 Hw)) as Hl.
  split.
  - rewrite length_app, repeat_length, length_rev. lia.
  - rewrite digits_val_app, digits_val_zeros. apply digits_rev_val.
    split; [lia|]. eapply Z.lt_le_trans; [apply Hn|]. apply Z.pow_le_mono_r; lia.
Qed.

Lemma app_inv_len {A} (l1 l2 r1 r2 : list A) :
  List.length l1 = List.length l2 -> l1 ++ r1 = l2 ++ r2 -> l1 = l2 /\ r1 = r2.
Proof.
  revert l2. induction l1 as [|x l1 IH]; intros [|y l2] Hl He; cbn in *; try discriminate;
    [split; [reflexivity | exact He]|].
  injection He as -> He. destruct (IH l2 ltac:(lia) He) as [-> ->]. split; reflexivity.
Qed.

Lemma strftime_ymd_spec o : MINORD <= o <= MAXORD ->
  List.length (strftime_ymd o) = 8%nat /\
  forall o', MINORD <= o' <= MAXORD -> strftime_ymd o = strftime_ymd o' -> o = o'.
Proof.
  intros Ho. pose proof (civil_round o Ho) as Hc. unfold strftime_ymd.
  destruct (civil_of_ordinal o) as [[y m] d].
  destruct Hc as [Hy [Hm [Hd Hr]]].
  destruct (zpad_spec 4 y ltac:(cbn; lia) ltac:(lia)) as [Ly Vy].
  destruct (zpad_spec 2 m ltac:(cbn; lia) ltac:(lia)) as [Lm Vm].
  destruct (zpad_spec 2 d ltac:(cbn; lia) ltac:(lia)) as [Ld Vd].
  split; [rewrite !length_app, Ly, Lm, Ld; reflexivity|].
  intros o' Ho' He. pose proof (civil_round o' Ho') as Hc'.
  destruct (civil_of_ordinal o') as [[y' m'] d'].
  destruct Hc' as [Hy' [Hm' [Hd' Hr']]].
  destruct (zpad_spec 4 y' ltac:(cbn; lia) ltac:(lia)) as [Ly' Vy'].
  destruct (zpad_spec 2 m' ltac:(cbn; lia) ltac:(lia)) as [Lm' Vm'].
  destruct (zpad_spec 2 d' ltac:(cbn; lia) ltac:(lia)) as [Ld' Vd'].
  apply app_inv_len in He as [Ey He]; [|congruence].
  apply app_inv_len in He as [Em Ed]; [|congruence].
  rewrite Ey in Vy. rewrite Em in Vm. rewrite Ed in Vd.
  assert (y = y') by congruence. assert (m = m') by congruence. assert (d = d') by congruence.
  subst. congruence.
Qed.

(** C8 (amended): one request build reads the UTC clock twice, [amz_date]
    from the first read and [date_stamp] from the second; the request carries
    the first as its X-Amz-Date header and is signed with both (in the
    package: the request handed to [requests.get]), and the date
    part of [amz_date] equals [date_stamp] whenever the two reads fall on the
    same UTC day, and differs from it whenever they fall on different
    (representable) days. *)
Theorem create_request_timestamps sha hmac utc cq s0 :
  (forall self s1 req,
   create_request_module sha hmac utc self cq s0 = (s1, Ok req) ->
   In ("X-Amz-Date"%string, strftime_amz (utc (utc_reads s0))) (req_headers req) /\
   exists access secret,
     sign_request sha hmac M_SERVICE_ENDPOINT M_SERVICE_REGION M_AWS_BASE_URL access secret
       (strftime_amz (utc (utc_reads s0))) (strftime_ds (utc (S (utc_reads s0)))) cq = Ok req) /\
  (forall requests_get a s r s1 res,
   create_request_package sha hmac utc requests_get (init_package a s r) cq s0 = (s1, res) ->
   (exists e, res = Err e /\
              prepare_request_package sha hmac utc (init_package a s r) cq s0 = (s1, Err e)) \/
   (exists s' req,
      prepare_request_package sha hmac utc (init_package a s r) cq s0 = (s', Ok req) /\
      requests_get req s' = (s1, res) /\
      In ("X-Amz-Date"%string, strftime_amz (utc (utc_reads s0))) (req_headers req) /\
      sign_request sha hmac (lit "awis." ++ r ++ lit ".amazonaws.com") r
        (lit "https://" ++ SERVICE_HOST ++ SERVICE_URI) a s
        (strftime_amz (utc (utc_reads s0))) (strftime_ds (utc (S (utc_reads s0)))) cq = Ok req)) /\
  (utc (utc_reads s0) / USEC_PER_DAY = utc (S (utc_reads s0)) / USEC_PER_DAY ->
   exists hms, strftime_amz (utc (utc_reads s0)) =
               strftime_ds (utc (S (utc_reads s0))) ++ lit "T" ++ hms) /\
  (MINORD <= EPOCH_ORD + utc (utc_reads s0) / USEC_PER_DAY <= MAXORD ->
   MINORD <= EPOCH_ORD + utc (S (utc_reads s0)) / USEC_PER_DAY <= MAXORD ->
   utc (utc_reads s0) / USEC_PER_DAY <> utc (S (utc_reads s0)) / USEC_PER_DAY ->
   forall hms, strftime_amz (utc (utc_reads s0)) <>
               strftime_ds (utc (S (utc_reads s0))) ++ lit "T" ++ hms).
Proof.
  split; [|split; [|split]].
  - intros self s1 req H.
    destruct (create_request_module_run _ _ _ _ _ _ _ _ H) as [ac [se [Hs _]]].
    split; [|exists ac, se; exact Hs].
    exact (proj2 (proj2 (sign_request_shape _ _ _ _ _ _ _ _ _ _ _ Hs))).
  - intros requests_get a s r s1 res H.
    destruct (create_request_package_sends _ _ _ _ _ _ _ _ _ H) as [Hl | [s' [req [Hp Hg]]]].
    + left. exact Hl.
    + right. exists s', req. split; [exact Hp|]. split; [exact Hg|].
      destruct (prepare_request_package_run _ _ _ _ _ _ _ _ _ _ Hp) as [Hs _].
      split; [|exact Hs].
      exact (proj2 (proj2 (sign_request_shape _ _ _ _ _ _ _ _ _ _ _ Hs))).
  - intros Hday. unfold strftime_amz, strftime_ds. rewrite Hday.
    eexists. reflexivity.
  - intros H1 H2 Hne hms Heq. unfold strftime_amz, strftime_ds in Heq.
    destruct (strftime_ymd_spec _ H1) as [L1 Inj].
    destruct (strftime_ymd_spec _ H2) as [L2 _].
    apply app_inv_len in Heq as [Heq _]; [|congruence].
    apply Inj in Heq; [lia | exact H2].
Qed.

Lemma create_request_timestamps_witness :
  exists s1 req,
    create_request_module sha256_toy hmac_toy (fun _ => 0) (init_module (lit "AKID") (lit "secret"))
      (lit "Action=urlInfo") st0 = (s1, Ok req) /\
    In ("X-Amz-Date"%string, strftime_amz 0) (req_headers req) /\
    (exists hms, strftime_amz 0 = strftime_ds 0 ++ lit "T" ++ hms).
Proof.
  destruct (create_request_timestamps sha256_toy hmac_toy (fun _ => 0) (lit "Action=urlInfo") st0)
    as [Hm [_ [Hd _]]].
  destruct (create_request_module sha256_toy hmac_toy (fun _ => 0)
              (init_module (lit "AKID") (lit "secret")) (lit "Action=urlInfo") st0)
    as [s1 [req|e]] eqn:E.
  - exists s1, req. split; [reflexivity|]. split.
    + exact (proj1 (Hm _ _ _ E)).
    + apply Hd. reflexivity.
  - vm_compute in E. discriminate E.
Defined.

(** C8 counterexample: with the clock passing midnight between the two
    reads, the request built carries X-Amz-Date 19700101T235959Z while its
    credential scope is dated 19700102. *)
Lemma create_request_timestamps_counterexample :
  option_map (fun r => firstn 3 (skipn 2 (req_headers r)))
    (match snd (create_request_module sha256_toy hmac_toy utc_midnight
                  (init_module (lit "AKID") (lit "secret")) (lit "Action=urlInfo") st0)
     with Ok r => Some r | Err _ => None end) =
  Some [("X-Amz-Date"%string, lit "19700101T235959Z");
        ("Authorization"%string,
         lit "AWS4-HMAC-SHA256 Credential=AKID/19700102/us-west-1/awis/aws4_request, SignedHeaders=host;x-amz-date, Signature=41575334")].
Proof. vm_compute. reflexivity. Qed.

(** ** Properties of url_info *)

(** C10: the package's [url_info] raises [AttributeError] for every URL and
    every (finite) collection of strings, since its instances have no
    attribute [valid_response_groups]; the state is left unchanged, so no
    request is built. *)
Theorem url_info_package_attribute_error a s r url response_groups s0 :
  url_info_package (init_package a s r) url response_groups s0 =
    (s0, Err (AttributeError "valid_response_groups")).
Proof.
  unfold url_info_package, url_info_query.
  destruct (iterate response_groups). reflexivity.
Qed.

(** C5 (code defect): the package rejects the valid collection [Rank] with
    an [AttributeError]; in awis.py a one-shot iterator is exhausted by
    [','.join] before [set(...)] is taken, so a generator yielding the unknown
    name [Bogus] passes the check and a request is built with it. A list
    holding [Bogus] is rejected with [NameError], and the valid list
    [Rank, Speed] is accepted. *)
Theorem url_info_validation_failures :
  url_info_package (init_package (lit "AKID") (lit "secret") (lit "us-west-1")) url_ex
    (IterList [lit "Rank"]) st0 = (st0, Err (AttributeError "valid_response_groups")) /\
  built (fst (url_info_module sha256_toy hmac_toy (fun _ => 0)
                (init_module (lit "AKID") (lit "secret")) url_ex (IterGen [lit "Bogus"]) st0)) =
    [lit "Action=urlInfo&ResponseGroup=Bogus&Url=example.com"] /\
  snd (url_info_module sha256_toy hmac_toy (fun _ => 0)
         (init_module (lit "AKID") (lit "secret")) url_ex (IterList [lit "Bogus"]) st0) =
    Err (NameError "Not all response groups are valid") /\
  built (fst (url_info_module sha256_toy hmac_toy (fun _ => 0)
                (init_module (lit "AKID") (lit "secret")) url_ex
                (IterList [lit "Rank"; lit "Speed"]) st0)) =
    [lit "Action=urlInfo&ResponseGroup=Rank%2CSpeed&Url=example.com"].
Proof. repeat split; vm_compute; reflexivity. Qed.

(** ** Properties of the traffic-history parser *)

Lemma iter_tag_filter t :
  forall e, iter_tag t e = filter (fun x => pystr_eqb (tag x) t) (preorder e).
Proof.
  fix IH 1. intros [t' x cs].
  change (preorder (Elem t' x cs)) with (Elem t' x cs :: flat_map preorder cs).
  change (iter_tag t (Elem t' x cs))
    with ((if pystr_eqb t' t then [Elem t' x cs] else []) ++ flat_map (iter_tag t) cs).
  assert (Hcs : flat_map (iter_tag t) cs =
                filter (fun x => pystr_eqb (tag x) t) (flat_map preorder cs)).
  { clear x t'. revert cs. fix IHl 1. intros [|c cs]; [reflexivity|].
    cbn [flat_map]. rewrite filter_app, <- IH, <- IHl. reflexivity. }
  rewrite Hcs. cbn [filter tag]. destruct (pystr_eqb t' t); reflexivity.
Qed.

Lemma Forall2_in {A B} (R : A -> B -> Prop) l l' x :
  Forall2 R l l' -> In x l -> exists y, R x y.
Proof.
  induction 1 as [|a b l l' Hab _ IH]; [contradiction|].
  intros [<-|Hin]; [exists b; exact Hab | exact (IH Hin)].
Qed.

Section ParserProofs.

Variable pyfloat : Type.
Variable py_int : pystr -> option Z.
Variable py_float : pystr -> option pyfloat.

Lemma parse_data_spec d r :
  parse_data pyfloat py_int py_float d = Ok r <-> record_of_data pyfloat py_int py_float d r.
Proof.
  unfold parse_data, record_of_data, some_or_attr, of_option, rbind, int_of_text, float_of_text.
  split.
  - destruct (find_child d (aws_tag ++ lit "Date")) as [de|] eqn:Hde; [|discriminate].
    destruct (find_child d (aws_tag ++ lit "PageViews")) as [pv|] eqn:Hpv; [|discriminate].
    destruct (find_child pv (aws_tag ++ lit "PerMillion")) as [pm|] eqn:Hpm; [|discriminate].
    destruct (text pm) as [spm|] eqn:Htpm; [|discriminate].
    destruct (py_int spm) as [vpm|] eqn:Hvpm; [|discriminate].
    destruct (find_child pv (aws_tag ++ lit "PerUser")) as [pu|] eqn:Hpu; [|discriminate].
    destruct (text pu) as [spu|] eqn:Htpu; [|discriminate].
    destruct (py_float spu) as [vpu|] eqn:Hvpu; [|discriminate].
    destruct (find_child d (aws_tag ++ lit "Rank")) as [rk|] eqn:Hrk; [|discriminate].
    destruct (text rk) as [srk|] eqn:Htrk; [|discriminate].
    destruct (py_int srk) as [vrk|] eqn:Hvrk; [|discriminate].
    destruct (find_path2 d (aws_tag ++ lit "Reach") (aws_tag ++ lit "PerMillion"))
      as [rc|] eqn:Hrc; [|discriminate].
    destruct (text rc) as [src|] eqn:Htrc; [|discriminate].
    destruct (py_int src) as [vrc|] eqn:Hvrc; [|discriminate].
    intros H; injection H as <-; cbn.
    split; [exists de; split; reflexivity|].
    split; [exists pv, pm, spm; repeat split; assumption|].
    split; [exists pv, pu, spu; repeat split; assumption|].
    split; [exists rk, srk; repeat split; assumption|].
    exists rc, src; repeat split; assumption.
  - intros [[de [Hde Hd]] [[pv [pm [spm [Hpv [Hpm [Htpm Hvpm]]]]]]
             [[pv' [pu [spu [Hpv' [Hpu [Htpu Hvpu]]]]]]
              [[rk [srk [Hrk [Htrk Hvrk]]]] [rc [src [Hrc [Htrc Hvrc]]]]]]]].
    rewrite Hpv in Hpv'. injection Hpv' as <-.
    rewrite Hde, Hpv, Hpm, Htpm, Hvpm, Hpu, Htpu, Hvpu, Hrk, Htrk, Hvrk, Hrc, Htrc, Hvrc.
    destruct r; cbn in *. rewrite Hd. reflexivity.
Qed.

Lemma parse_all_spec els rs :
  parse_all pyfloat py_int py_float els = Ok rs <->
  Forall2 (fun d r => parse_data pyfloat py_int py_float d = Ok r) els rs.
Proof.
  revert rs. induction els as [|e els IH]; intros rs; cbn.
  - split; [intros H; injection H as <-; constructor | intros H; inversion H; reflexivity].
  - unfold rbind. split.
    + destruct (parse_data _ _ _ e) as [r|er] eqn:He; [|discriminate].
      destruct (parse_all _ _ _ els) as [rs'|er] eqn:Hr; [|discriminate].
      intros H; injection H as <-. constructor; [exact He | apply IH; reflexivity].
    + intros H; inversion H as [|a r b rs' Hd Hrest]; subst.
      rewrite Hd. apply IH in Hrest. rewrite Hrest. reflexivity.
Qed.

Lemma parse_traffic_history_spec et_parse content root rs :
  et_parse content = Some root ->
  (parse_traffic_history pyfloat py_int py_float et_parse content = Ok rs <->
   Forall2 (record_of_data pyfloat py_int py_float) (data_elements root) rs).
Proof.
  intros Hroot. unfold parse_traffic_history, of_option, rbind. rewrite Hroot.
  rewrite parse_all_spec, iter_tag_filter. unfold data_elements.
  split; apply Forall2_impl; intros d r; apply parse_data_spec.
Qed.

End ParserProofs.

(** C4: on a document the parser reads as [root], parsing succeeds with
    [rs] exactly when [rs] holds, in document order, one record per [Data]
    element of [root], carrying its [Date] text, [int] of
    [PageViews/PerMillion], [float] of [PageViews/PerUser], [int] of [Rank]
    and [int] of [Reach/PerMillion]; on the one-[Data] fixture it yields the
    single record (20200101, 1000, float('2.5'), 500, 900). *)
Theorem parse_traffic_history_records pyfloat py_int py_float et_parse content :
  (forall root rs, et_parse content = Some root ->
   (parse_traffic_history pyfloat py_int py_float et_parse content = Ok rs <->
    Forall2 (record_of_data pyfloat py_int py_float) (data_elements root) rs)) /\
  (et_parse content = Some (response_fixture aws_tag) ->
   py_int (lit "1000") = Some 1000 -> py_int (lit "500") = Some 500 ->
   py_int (lit "900") = Some 900 ->
   forall x, py_float (lit "2.5") = Some x ->
   parse_traffic_history pyfloat py_int py_float et_parse content =
     Ok [mkTrafficHistory pyfloat (Some (lit "20200101")) 1000 x 500 900]).
Proof.
  split.
  - intros root rs Hroot. exact (parse_traffic_history_spec _ _ _ _ _ _ _ Hroot).
  - intros Hroot H1000 H500 H900 x Hx.
    unfold parse_traffic_history, of_option, rbind. rewrite Hroot.
    vm_compute in H1000, H500, H900, Hx. vm_compute.
    rewrite H1000, Hx, H500, H900. reflexivity.
Qed.

Lemma pystr_eqb_true a b : pystr_eqb a b = true -> a = b.
Proof. unfold pystr_eqb. destruct (list_eq_dec Z.eq_dec a b); congruence. Qed.

Lemma missing_no_record pyfloat py_int py_float d :
  missing_required_child d -> forall r, ~ record_of_data pyfloat py_int py_float d r.
Proof.
  intros Hm r [[de [Hde _]] [[pv [pm [? [Hpv [Hpm _]]]]]
     [[pv' [pu [? [Hpv' [Hpu _]]]]] [[rk [? [Hrk _]]] [rc [? [Hrc _]]]]]]].
  destruct Hm as [H|[H|[[pv0 [H0 [H|H]]]|[H|H]]]]; congruence.
Qed.

Lemma no_namespace_no_data root :
  Forall (fun e => hd_error (tag e) <> Some 123) (preorder root) -> data_elements root = [].
Proof.
  unfold data_elements. induction (preorder root) as [|e l IH]; intros H; [reflexivity|].
  inversion H as [|? ? He Hl]; subst. cbn [filter].
  destruct (pystr_eqb (tag e) (aws_tag ++ lit "Data")) eqn:E.
  - apply pystr_eqb_true in E. rewrite E in He. contradiction He. reflexivity.
  - exact (IH Hl).
Qed.

Lemma parse_data_err_kind pyfloat py_int py_float d e :
  parse_data pyfloat py_int py_float d = Err e ->
  (exists a, e = AttributeError a) \/ e = TypeError \/ (exists m, e = ValueError m).
Proof.
  unfold parse_data, rbind, some_or_attr, of_option, int_of_text, float_of_text.
  repeat (first [ destruct (find_child _ _) | destruct (find_path2 _ _ _) | destruct (text _)
                | destruct (py_int _) | destruct (py_float _) ]; cbv beta iota);
    intros H; first [discriminate H | injection H as <-; eauto].
Qed.

Lemma parse_traffic_history_err_kind pyfloat py_int py_float et_parse content root e :
  et_parse content = Some root ->
  parse_traffic_history pyfloat py_int py_float et_parse content = Err e ->
  (exists a, e = AttributeError a) \/ e = TypeError \/ (exists m, e = ValueError m).
Proof.
  intros Hroot. unfold parse_traffic_history, of_option, rbind. rewrite Hroot.
  induction (iter_tag (aws_tag ++ lit "Data") root) as [|d l IH]; cbn [parse_all];
    [discriminate|].
  unfold rbind at 1.
  destruct (parse_data pyfloat py_int py_float d) as [r|err] eqn:Ed.
  - unfold rbind. destruct (parse_all pyfloat py_int py_float l); [discriminate|].
    intros H. apply IH. exact H.
  - intros H. injection H as <-. exact (parse_data_err_kind _ _ _ _ _ Ed).
Qed.

(** C7 (amended): malformed XML raises [XMLSyntaxError]; when some [Data]
    element lacks a required child the parser raises an exception and
    returns no result, partial or otherwise: an [AttributeError], or the
    [TypeError] or [ValueError] of [int()] / [float()] on a missing or
    invalid text; a document with no namespaced element at all is not
    rejected and parses to the empty list. *)
Theorem parse_traffic_history_failures pyfloat py_int py_float et_parse content :
  (et_parse content = None ->
   parse_traffic_history pyfloat py_int py_float et_parse content = Err XMLSyntaxError) /\
  (forall root d, et_parse content = Some root -> In d (data_elements root) ->
   missing_required_child d ->
   exists e, parse_traffic_history pyfloat py_int py_float et_parse content = Err e /\
     ((exists a, e = AttributeError a) \/ e = TypeError \/ (exists m, e = ValueError m))) /\
  (forall root, et_parse content = Some root ->
   Forall (fun e => hd_error (tag e) <> Some 123) (preorder root) ->
   parse_traffic_history pyfloat py_int py_float et_parse content = Ok []).
Proof.
  split; [|split].
  - intros H. unfold parse_traffic_history, of_option, rbind. rewrite H. reflexivity.
  - intros root d Hroot Hin Hm.
    destruct (parse_traffic_history pyfloat py_int py_float et_parse content) as [rs|e] eqn:E;
      [|exists e; split; [reflexivity | exact (parse_traffic_history_err_kind _ _ _ _ _ _ _ Hroot E)]].
    apply (parse_traffic_history_spec _ _ _ _ _ _ _ Hroot) in E.
    destruct (Forall2_in _ _ _ _ E Hin) as [r Hr].
    exfalso. exact (missing_no_record _ _ _ _ Hm r Hr).
  - intros root Hroot Hns.
    apply (parse_traffic_history_spec _ _ _ _ _ _ _ Hroot).
    rewrite (no_namespace_no_data _ Hns). constructor.
Qed.

(** C7: a response with no namespace is accepted and yields no record,
    where a parse failure was expected. *)
Lemma parse_traffic_history_no_namespace_counterexample :
  parse_traffic_history (Z * nat) py_int_dec py_float_dec
    (fun _ => Some (response_fixture [])) [] = Ok [].
Proof. vm_compute. reflexivity. Qed.

Lemma parse_traffic_history_failures_witness :
  parse_traffic_history (Z * nat) py_int_dec py_float_dec (fun _ => None) [] = Err XMLSyntaxError /\
  (exists e, parse_traffic_history (Z * nat) py_int_dec py_float_dec
               (fun _ => Some (response_no_rank aws_tag)) [] = Err e /\
     ((exists a, e = AttributeError a) \/ e = TypeError \/ (exists m, e = ValueError m))) /\
  parse_traffic_history (Z * nat) py_int_dec py_float_dec
    (fun _ => Some (response_fixture [])) [] = Ok [].
Proof.
  split; [|split].
  - apply (parse_traffic_history_failures (Z * nat) py_int_dec py_float_dec (fun _ => None) []).
    reflexivity.
  - destruct (parse_traffic_history_failures (Z * nat) py_int_dec py_float_dec
                (fun _ => Some (response_no_rank aws_tag)) []) as [_ [H2 _]].
    apply (H2 (response_no_rank aws_tag)
              (hd (response_no_rank aws_tag) (data_elements (response_no_rank aws_tag)))).
    + reflexivity.
    + vm_compute. left. reflexivity.
    + right. right. right. left. vm_compute. reflexivity.
  - destruct (parse_traffic_history_failures (Z * nat) py_int_dec py_float_dec
                (fun _ => Some (response_fixture [])) []) as [_ [_ H3]].
    apply (H3 (response_fixture [])); [reflexivity|].
    apply Forall_forall. intros e He. vm_compute in He.
    repeat (destruct He as [<-|He]; [discriminate|]). destruct He.
Defined.

Lemma parse_traffic_history_records_witness :
  (parse_traffic_history (Z * nat) py_int_dec py_float_dec
     (fun _ => Some (response_fixture aws_tag)) [] =
     Ok [mkTrafficHistory (Z * nat) (Some (lit "20200101")) 1000 (25, 1%nat) 500 900] <->
   Forall2 (record_of_data (Z * nat) py_int_dec py_float_dec)
     (data_elements (response_fixture aws_tag))
     [mkTrafficHistory (Z * nat) (Some (lit "20200101")) 1000 (25, 1%nat) 500 900]) /\
  parse_traffic_history (Z * nat) py_int_dec py_float_dec
    (fun _ => Some (response_fixture aws_tag)) [] =
    Ok [mkTrafficHistory (Z * nat) (Some (lit "20200101")) 1000 (25, 1%nat) 500 900].
Proof.
  destruct (parse_traffic_history_records (Z * nat) py_int_dec py_float_dec
              (fun _ => Some (response_fixture aws_tag)) []) as [H1 H2].
  split.
  - apply (H1 (response_fixture aws_tag)). reflexivity.
  - apply H2; reflexivity.
Defined.

(** ** Properties of the quoting of query values *)

Lemma log2_byte x : 0 <= x < 256 -> Z.log2 x < 8.
Proof.
  intros Hx. destruct (Z.eq_dec x 0) as [->|Hne]; [reflexivity|].
  apply Z.log2_lt_pow2; lia.
Qed.

Lemma lor_bound a b : 0 <= a < 256 -> 0 <= b < 256 -> 0 <= Z.lor a b < 256.
Proof.
  intros Ha Hb. assert (H0 : 0 <= Z.lor a b) by (apply Z.lor_nonneg; lia).
  split; [exact H0|].
  destruct (Z.eq_dec (Z.lor a b) 0) as [->|Hne]; [lia|].
  change 256 with (2 ^ 8). apply Z.log2_lt_pow2; [lia|].
  rewrite Z.log2_lor by lia. apply Z.max_lub_lt; apply log2_byte; lia.
Qed.

Lemma land63 x : 0 <= Z.land x 63 < 64.
Proof.
  change 63 with (Z.ones 6). rewrite Z.land_ones by lia.
  apply Z.mod_pos_bound. reflexivity.
Qed.

Lemma shiftr_bound x k m : 0 <= k -> 0 <= x < m * 2 ^ k -> 0 <= Z.shiftr x k < m.
Proof.
  intros Hk Hx. rewrite Z.shiftr_div_pow2 by exact Hk.
  assert (0 < 2 ^ k) by (apply Z.pow_pos_nonneg; lia).
  split; [apply Z.div_pos; lia | apply Z.div_lt_upper_bound; lia].
Qed.

Ltac byte_tac :=
  unfold is_byte;
  first
  [ lia
  | apply lor_bound; [lia|];
    match goal with
    | |- 0 <= Z.land ?x 63 < 256 => pose proof (land63 x); lia
    | |- 0 <= Z.shiftr ?x ?k < 256 =>
        let m := fresh in
        first [ assert (m : 0 <= Z.shiftr x k < 32) by (apply shiftr_bound; cbn; lia)
              | assert (m : 0 <= Z.shiftr x k < 16) by (apply shiftr_bound; cbn; lia)
              | assert (m : 0 <= Z.shiftr x k < 8) by (apply shiftr_bound; cbn; lia) ];
        lia
    end ].

Lemma some_inj {A} (x y : A) : Some x = Some y -> x = y.
Proof. congruence. Qed.

Lemma utf8_char_bytes c b : utf8_char c = Some b -> Forall is_byte b.
Proof.
  unfold utf8_char. zcases; cbv beta iota delta [andb]; intros Hs; try discriminate;
    apply some_inj in Hs; subst b; repeat apply Forall_cons; try apply Forall_nil; byte_tac.
Qed.

Lemma encode_utf8_bytes s b : encode_utf8 s = Some b -> Forall is_byte b.
Proof.
  revert b; induction s as [|c s IH]; intros b; cbn.
  - intros H; injection H as <-. constructor.
  - destruct (utf8_char c) as [bc|] eqn:Hc, (encode_utf8 s) as [bs|]; try discriminate.
    intros H; injection H as <-. apply Forall_app. split.
    + exact (utf8_char_bytes _ _ Hc).
    + exact (IH _ eq_refl).
Qed.

Lemma nibble_bounds x : is_byte x -> 0 <= Z.shiftr x 4 < 16 /\ 0 <= Z.land x 15 < 16 /\
  16 * Z.shiftr x 4 + Z.land x 15 = x.
Proof.
  unfold is_byte. intros Hx.
  rewrite Z.shiftr_div_pow2 by lia. change 15 with (Z.ones 4). rewrite Z.land_ones by lia.
  change (2 ^ 4) with 16.
  pose proof (Z.div_mod x 16 ltac:(lia)). pose proof (Z.mod_pos_bound x 16 ltac:(lia)).
  split; [split; [apply Z.div_pos | apply Z.div_lt_upper_bound]; lia | lia].
Qed.

Lemma hex_upper_val n : 0 <= n < 16 -> hex_val (hex_upper n) = Some n /\
  In (hex_upper n) (lit "0123456789ABCDEF").
Proof.
  intros Hn.
  assert (Hk : exists k, (k < 16)%nat /\ n = Z.of_nat k)
    by (exists (Z.to_nat n); split; lia).
  destruct Hk as [k [Hk ->]].
  do 16 (destruct k as [|k]; [split; [reflexivity | cbn; tauto]|]). lia.
Qed.

Lemma quote_byte_chars x : is_byte x ->
  Forall (fun c => quote_safe c = true \/ c = 37 \/ In c (lit "0123456789ABCDEF")) (quote_byte x).
Proof.
  intros Hx. destruct (nibble_bounds x Hx) as [H1 [H2 _]].
  unfold quote_byte. destruct (quote_safe x) eqn:E.
  - constructor; [left; exact E | constructor].
  - apply Forall_cons; [right; left; reflexivity|].
    apply Forall_cons; [right; right; exact (proj2 (hex_upper_val _ H1))|].
    apply Forall_cons; [right; right; exact (proj2 (hex_upper_val _ H2))|].
    apply Forall_nil.
Qed.

Lemma unquote_quote_byte x rest : is_byte x ->
  unquote (quote_byte x ++ rest) = option_map (cons x) (unquote rest).
Proof.
  intros Hx. destruct (nibble_bounds x Hx) as [H1 [H2 H3]].
  unfold quote_byte. destruct (quote_safe x) eqn:E.
  - cbn [app unquote].
    replace (x =? 37) with false by (symmetry; apply Z.eqb_neq; intros ->; discriminate E).
    reflexivity.
  - cbn [app unquote Z.eqb Pos.eqb].
    rewrite (proj1 (hex_upper_val _ H1)), (proj1 (hex_upper_val _ H2)), H3.
    destruct (unquote rest); reflexivity.
Qed.

Lemma unquote_flat_map b : Forall is_byte b -> unquote (flat_map quote_byte b) = Some b.
Proof.
  induction 1 as [|x b Hx _ IH]; [reflexivity|].
  cbn [flat_map]. rewrite unquote_quote_byte by exact Hx. rewrite IH. reflexivity.
Qed.

Lemma quote_ok s q : quote s = Ok q -> exists b, encode_utf8 s = Some b /\ q = flat_map quote_byte b.
Proof.
  unfold quote, encode, of_option, rbind.
  destruct (encode_utf8 s) as [b|]; [|discriminate].
  intros H; injection H as <-. exists b. split; reflexivity.
Qed.

Lemma well_escaped_quote_byte x rest : is_byte x ->
  well_escaped (quote_byte x ++ rest) = well_escaped rest.
Proof.
  intros Hx. destruct (nibble_bounds x Hx) as [H1 [H2 _]].
  unfold quote_byte. destruct (quote_safe x) eqn:E.
  - cbn [app well_escaped].
    replace (x =? 37) with false by (symmetry; apply Z.eqb_neq; intros ->; discriminate E).
    rewrite E. reflexivity.
  - cbn [app well_escaped Z.eqb Pos.eqb].
    rewrite (proj1 (hex_upper_val _ H1)), (proj1 (hex_upper_val _ H2)). reflexivity.
Qed.

Lemma well_escaped_flat_map b : Forall is_byte b -> well_escaped (flat_map quote_byte b) = true.
Proof.
  induction 1 as [|x b Hx _ IH]; [reflexivity|].
  cbn [flat_map]. rewrite well_escaped_quote_byte by exact Hx. exact IH.
Qed.

(** The value [quote(url)] that both versions put after [Url=] (and
    [quote(','.join(response_groups))] after [ResponseGroup=]) consists of
    unreserved characters, '/', and "%XX" escapes with uppercase hex: it is
    [well_escaped] (every '%' is followed by two uppercase hex digits) and
    never holds '&', '=', '#' or a space, so it cannot add or end a query
    parameter. Quoting fails, with [UnicodeEncodeError], exactly on a string
    holding a lone surrogate. *)
Theorem quote_query_value s :
  (forall q, quote s = Ok q ->
   well_escaped q = true /\
   Forall (fun c => quote_safe c = true \/ c = 37 \/ In c (lit "0123456789ABCDEF")) q /\
   ~ In 38 q /\ ~ In 61 q /\ ~ In 35 q /\ ~ In 32 q) /\
  (quote s = Err UnicodeEncodeError <-> ~ Forall (fun c => utf8_ok c = true) s).
Proof.
  split.
  - intros q Hq. destruct (quote_ok s q Hq) as [b [Hb ->]].
    pose proof (encode_utf8_bytes s b Hb) as Hbytes.
    assert (HF : Forall (fun c => quote_safe c = true \/ c = 37 \/
                                   In c (lit "0123456789ABCDEF")) (flat_map quote_byte b)).
    { clear Hq Hb. induction Hbytes as [|x b Hx _ IH]; [constructor|].
      cbn [flat_map]. apply Forall_app. split; [apply quote_byte_chars; exact Hx | exact IH]. }
    assert (Hnot : forall c, In c (flat_map quote_byte b) -> c = 38 \/ c = 61 \/ c = 35 \/ c = 32 -> False).
    { intros c Hc Hbad. rewrite Forall_forall in HF. specialize (HF c Hc).
      destruct Hbad as [ -> | [ -> | [ -> | -> ]]];
        (destruct HF as [HF|[HF|HF]]; [discriminate HF | discriminate HF | cbn in HF; lia]). }
    split; [apply well_escaped_flat_map; exact Hbytes|].
    split; [exact HF|].
    repeat split; intros Hc; apply (Hnot _ Hc); tauto.
  - rewrite <- encode_utf8_some. unfold quote, encode, of_option, rbind.
    destruct (encode_utf8 s) as [b|].
    + split; [discriminate | intros H; exfalso; apply H; exists b; reflexivity].
    + split; [intros _ [b Hb]; discriminate | reflexivity].
Qed.

Lemma quote_query_value_witness :
  well_escaped (lit "a%20b%26c%3Dd") = true /\
  Forall (fun c => quote_safe c = true \/ c = 37 \/ In c (lit "0123456789ABCDEF"))
    (lit "a%20b%26c%3Dd") /\ ~ In 38 (lit "a%20b%26c%3Dd") /\
  quote [55296] = Err UnicodeEncodeError.
Proof.
  destruct (quote_query_value (lit "a b&c=d")) as [H1 _].
  destruct (H1 (lit "a%20b%26c%3Dd") ltac:(vm_compute; reflexivity)) as [HW [HF [H38 _]]].
  split; [exact HW|]. split; [exact HF|]. split; [exact H38|].
  apply (proj2 (proj2 (quote_query_value [55296]))).
  intros H. inversion H as [|? ? Hc _]. discriminate Hc.
Defined.

(** Percent-decoding what [quote] produced gives back the UTF-8 bytes of
    the quoted string. *)
Theorem quote_unquote s q :
  quote s = Ok q -> exists b, encode s = Ok b /\ unquote q = Some b.
Proof.
  intros Hq. destruct (quote_ok s q Hq) as [b [Hb ->]].
  exists b. split.
  - unfold encode, of_option. rewrite Hb. reflexivity.
  - apply unquote_flat_map. exact (encode_utf8_bytes s b Hb).
Qed.

Lemma quote_unquote_witness :
  exists b, encode (lit "a b&c=d") = Ok b /\ unquote (lit "a%20b%26c%3Dd") = Some b.
Proof. apply quote_unquote. vm_compute. reflexivity. Defined.

(** ** Properties of AWIS.url_info (awis.py) *)

Lemma pystr_eqb_refl a : pystr_eqb a a = true.
Proof. unfold pystr_eqb. destruct (list_eq_dec Z.eq_dec a a); congruence. Qed.

Lemma subset_spec xs valid : subset xs valid = true <-> Forall (fun x => In x valid) xs.
Proof.
  unfold subset. rewrite forallb_forall, Forall_forall.
  split; intros H x Hx; specialize (H x Hx).
  - apply existsb_exists in H. destruct H as [y [Hy E]].
    apply pystr_eqb_true in E. subst. exact Hy.
  - apply existsb_exists. exists x. split; [exact H | apply pystr_eqb_refl].
Qed.

Lemma quote_app a b :
  quote (a ++ b) = (qa <-? quote a ;; qb <-? quote b ;; Ok (qa ++ qb)).
Proof.
  unfold quote, encode, of_option, rbind. rewrite encode_utf8_app.
  destruct (encode_utf8 a), (encode_utf8 b); try reflexivity.
  rewrite flat_map_app. reflexivity.
Qed.

Lemma quote_valid_group g : In g VALID_RESPONSE_GROUPS -> quote g = Ok g.
Proof.
  intros Hg. unfold VALID_RESPONSE_GROUPS in Hg.
  repeat (destruct Hg as [<-|Hg]; [vm_compute; reflexivity|]). destruct Hg.
Qed.

Lemma quote_join_valid l :
  Forall (fun g => In g VALID_RESPONSE_GROUPS) l ->
  quote (join (lit ",") l) = Ok (join (lit "%2C") l).
Proof.
  induction 1 as [|g l Hg Hl IH]; [reflexivity|].
  destruct l as [|g' l].
  - cbn [join]. apply quote_valid_group, Hg.
  - change (join (lit ",") (g :: g' :: l)) with (g ++ lit "," ++ join (lit ",") (g' :: l)).
    change (join (lit "%2C") (g :: g' :: l)) with (g ++ lit "%2C" ++ join (lit "%2C") (g' :: l)).
    rewrite quote_app, quote_valid_group by exact Hg. cbn [rbind].
    rewrite quote_app, IH. reflexivity.
Qed.

Lemma quote_err s e : quote s = Err e -> e = UnicodeEncodeError.
Proof.
  unfold quote, encode, of_option, rbind. destruct (encode_utf8 s); congruence.
Qed.

Lemma getattr_valid_module a s :
  getattr (init_module a s) "valid_response_groups" = Ok (VStrSet VALID_RESPONSE_GROUPS).
Proof. reflexivity. Qed.

(** awis.py, [url_info] on a list (or any re-iterable collection) of
    response groups: it raises [NameError] exactly when some group is not,
    character for character, one of the eleven valid names, and then reads
    no clock and builds no request; otherwise the canonical query carries
    the groups joined by an escaped comma "%2C" (an empty list gives an
    empty [ResponseGroup]). *)
Theorem url_info_module_list sha hmac utc a s url l s0 :
  url_info_query (init_module a s) url (IterList l) s0 =
    (if subset l VALID_RESPONSE_GROUPS then
       match quote url with
       | Ok qurl =>
           (s0, Ok (lit "Action=urlInfo&ResponseGroup=" ++ join (lit "%2C") l ++ lit "&Url=" ++ qurl))
       | Err e => (s0, Err e)
       end
     else (s0, Err (NameError "Not all response groups are valid"))) /\
  (subset l VALID_RESPONSE_GROUPS = false ->
   url_info_module sha hmac utc (init_module a s) url (IterList l) s0 =
     (s0, Err (NameError "Not all response groups are valid"))).
Proof.
  assert (Hq : url_info_query (init_module a s) url (IterList l) s0 =
    (if subset l VALID_RESPONSE_GROUPS then
       match quote url with
       | Ok qurl =>
           (s0, Ok (lit "Action=urlInfo&ResponseGroup=" ++ join (lit "%2C") l ++ lit "&Url=" ++ qurl))
       | Err e => (s0, Err e)
       end
     else (s0, Err (NameError "Not all response groups are valid")))).
  { unfold url_info_query. cbn [iterate].
    unfold bind at 1, lift at 1. rewrite getattr_valid_module.
    destruct (subset l VALID_RESPONSE_GROUPS) eqn:E; cbn [negb]; [|reflexivity].
    unfold bind at 1, lift at 1.
    rewrite quote_join_valid by (apply subset_spec; exact E).
    unfold bind, lift, ret. destruct (quote url); reflexivity. }
  split; [exact Hq|].
  intros E. unfold url_info_module, bind at 1. rewrite Hq, E. reflexivity.
Qed.

(** awis.py, [url_info] on a generator: [','.join] exhausts it before
    [set(response_groups)] is taken, so the check never raises [NameError],
    and the canonical query carries whatever names the generator yielded. *)
Theorem url_info_module_generator a s url l s0 :
  snd (url_info_query (init_module a s) url (IterGen l) s0) <>
    Err (NameError "Not all response groups are valid") /\
  (forall qrg qurl, quote (join (lit ",") l) = Ok qrg -> quote url = Ok qurl ->
   url_info_query (init_module a s) url (IterGen l) s0 =
     (s0, Ok (lit "Action=urlInfo&ResponseGroup=" ++ qrg ++ lit "&Url=" ++ qurl))).
Proof.
  unfold url_info_query. cbn [iterate].
  unfold bind at 1, lift at 1. rewrite getattr_valid_module. cbn [subset forallb negb].
  unfold bind, lift, ret. split.
  - destruct (quote (join (lit ",") l)) as [qrg|e] eqn:E1; cbn [snd].
    + destruct (quote url) as [qurl|e] eqn:E2; cbn [snd]; [discriminate|].
      apply quote_err in E2. subst e. discriminate.
    + apply quote_err in E1. subst e. discriminate.
  - intros qrg qurl H1 H2. rewrite H1, H2. reflexivity.
Qed.

Lemma url_info_module_generator_witness :
  url_info_query (init_module (lit "AKID") (lit "secret")) url_ex (IterGen [lit "Bogus"]) st0 =
    (st0, Ok (lit "Action=urlInfo&ResponseGroup=Bogus&Url=example.com")).
Proof.
  apply (proj2 (url_info_module_generator (lit "AKID") (lit "secret") url_ex [lit "Bogus"] st0)
           (lit "Bogus") url_ex); vm_compute; reflexivity.
Defined.

Lemma url_info_module_list_witness :
  url_info_module sha256_toy hmac_toy (fun _ => 0) (init_module (lit "AKID") (lit "secret"))
    url_ex (IterList [lit "rank"]) st0 = (st0, Err (NameError "Not all response groups are valid")).
Proof.
  apply (proj2 (url_info_module_list sha256_toy hmac_toy (fun _ => 0) (lit "AKID") (lit "secret")
                  url_ex [lit "rank"] st0)).
  vm_compute. reflexivity.
Defined.

(** ** Encodability of the inputs of the request builder *)

Lemma utf8_ok_ascii c : 0 <= c < 128 -> utf8_ok c = true.
Proof.
  intros Hc. unfold utf8_ok.
  destruct (Z.leb_spec 0 c), (Z.leb_spec c 1114111), (Z.leb_spec 55296 c); cbn; lia.
Qed.

Lemma utf8_all_lit s : forallb utf8_ok s = true -> utf8_all s.
Proof. intros H. apply Forall_forall. apply forallb_forall. exact H. Qed.

Lemma utf8_all_ascii s : Forall (fun c => 0 <= c < 128) s -> utf8_all s.
Proof. apply Forall_impl. exact utf8_ok_ascii. Qed.

Lemma bytes_hex_chars b : Forall is_byte b -> Forall (fun c => In c HEX_LOWER) (bytes_hex b).
Proof.
  induction 1 as [|x b Hx _ IH]; cbn [bytes_hex]; [constructor|].
  destruct (nibble_bounds x Hx) as [H1 [H2 _]].
  constructor; [|constructor; [|exact IH]];
    rewrite hex_digit_nth by assumption; apply nth_In; change (List.length HEX_LOWER) with 16%nat; lia.
Qed.

Lemma bytes_hex_ascii b : Forall is_byte b -> utf8_all (bytes_hex b).
Proof.
  intros Hb. apply utf8_all_ascii. eapply Forall_impl; [|exact (bytes_hex_chars b Hb)].
  intros c Hc. cbn in Hc. lia.
Qed.

Lemma bytes_hex_length b : List.length (bytes_hex b) = (2 * List.length b)%nat.
Proof. induction b as [|x b IH]; cbn [bytes_hex List.length]; [reflexivity | rewrite IH; lia]. Qed.

Lemma digits_rev_digits f : forall n, 0 <= n -> Forall (fun c => 48 <= c <= 57) (digits_rev f n).
Proof.
  induction f as [|f IH]; intros n Hn; cbn [digits_rev]; [constructor|].
  destruct (Z.ltb_spec n 10).
  - constructor; [lia | constructor].
  - pose proof (Z.mod_pos_bound n 10 ltac:(lia)).
    constructor; [lia | apply IH; apply Z.div_pos; lia].
Qed.

Lemma str_int_ascii n : Forall (fun c => 0 <= c < 128) (str_int n).
Proof.
  unfold str_int. destruct (Z.ltb_spec n 0).
  - constructor; [lia|]. apply Forall_rev.
    eapply Forall_impl; [|apply digits_rev_digits; lia]. cbn; intros; lia.
  - apply Forall_rev. eapply Forall_impl; [|apply digits_rev_digits; lia]. cbn; intros; lia.
Qed.

Lemma zpad_ascii w n : Forall (fun c => 0 <= c < 128) (zpad w n).
Proof.
  unfold zpad. apply Forall_app. split; [|apply str_int_ascii].
  apply Forall_forall. intros c Hc. apply repeat_spec in Hc. lia.
Qed.

Lemma strftime_ymd_ascii o : Forall (fun c => 0 <= c < 128) (strftime_ymd o).
Proof.
  unfold strftime_ymd. destruct (civil_of_ordinal o) as [[y m] d].
  rewrite !Forall_app. repeat split; apply zpad_ascii.
Qed.

Lemma strftime_amz_ok t : utf8_all (strftime_amz t).
Proof.
  apply utf8_all_ascii. unfold strftime_amz.
  rewrite !Forall_app. repeat split; try apply zpad_ascii; try apply strftime_ymd_ascii;
    repeat constructor; lia.
Qed.

Lemma strftime_ds_ok t : utf8_all (strftime_ds t).
Proof. apply utf8_all_ascii. apply strftime_ymd_ascii. Qed.

Lemma encode_some_all s b : encode_utf8 s = Some b -> utf8_all s.
Proof. intros H. apply encode_utf8_some. exists b. exact H. Qed.

Lemma encode_none_not_all s : encode_utf8 s = None -> ~ utf8_all s.
Proof.
  intros H Hs. apply encode_utf8_some in Hs. destruct Hs as [b Hb]. congruence.
Qed.

Ltac destruct_encodes :=
  repeat match goal with
         | |- context [encode_utf8 ?x] =>
             let E := fresh "E" in destruct (encode_utf8 x) eqn:E; cbv beta iota
         end.

Ltac utf8_all_tac :=
  unfold utf8_all in *;
  repeat (apply Forall_app; split);
  first [ assumption
        | apply utf8_all_lit; reflexivity
        | apply bytes_hex_ascii; auto ].

Section SignerProofs.

Variable sha : bytes -> bytes.
Variable hmac : bytes -> bytes -> bytes.
Hypothesis sha_bytes : forall b, Forall is_byte (sha b).

Lemma sign_request_inv endpoint region base_url access secret amz ds cq :
  (forall req, sign_request sha hmac endpoint region base_url access secret amz ds cq = Ok req ->
   utf8_all (endpoint ++ region ++ secret ++ amz ++ ds ++ cq)) /\
  (forall e, sign_request sha hmac endpoint region base_url access secret amz ds cq = Err e ->
   e = UnicodeEncodeError) /\
  (utf8_all (endpoint ++ region ++ secret ++ amz ++ ds ++ cq) ->
   exists req, sign_request sha hmac endpoint region base_url access secret amz ds cq = Ok req).
Proof.
  unfold sign_request, sha256, signature_of, encode, of_option, rbind.
  rewrite get_signature_key_eq. cbv zeta.
  destruct_encodes; refine (conj _ (conj _ _));
    try (intros ? H; first [discriminate H | injection H as <-; reflexivity]);
    try (intros _; eexists; reflexivity).
  { intros ? _. apply encode_some_all in E0, E1, E2, E3.
    unfold utf8_all in *. rewrite !Forall_app in *. tauto. }
  all: intros Hall; unfold utf8_all in Hall; rewrite !Forall_app in Hall; decompose [and] Hall; exfalso;
      match goal with E : encode_utf8 _ = None |- _ => apply (encode_none_not_all _ E) end;
      utf8_all_tac.
Qed.

End SignerProofs.

Lemma create_request_module_eq sha hmac utc a s cq tr ur bl :
  create_request_module sha hmac utc (init_module a s) cq (mkSt tr ur bl) =
  match sign_request sha hmac M_SERVICE_ENDPOINT M_SERVICE_REGION M_AWS_BASE_URL a s
          (strftime_amz (utc ur)) (strftime_ds (utc (S ur))) cq with
  | Ok req => (mkSt tr (S (S ur)) (bl ++ [cq]), Ok req)
  | Err e => (mkSt tr (S (S ur)) bl, Err e)
  end.
Proof.
  cbv beta iota zeta delta [create_request_module amz_date date_stamp bind ret lift utcnow emit
                             utc_reads today_reads built init_module getattr_str getattr
                             String.eqb Ascii.eqb Bool.eqb rbind].
  destruct (sign_request _ _ _ _ _ _ _ _ _ _); reflexivity.
Qed.

Lemma sign_request_dichotomy sha hmac endpoint region base_url access secret amz ds cq :
  (forall b, Forall is_byte (sha b)) ->
  (utf8_all (endpoint ++ region ++ secret ++ amz ++ ds ++ cq) ->
   exists req, sign_request sha hmac endpoint region base_url access secret amz ds cq = Ok req) /\
  (~ utf8_all (endpoint ++ region ++ secret ++ amz ++ ds ++ cq) ->
   sign_request sha hmac endpoint region base_url access secret amz ds cq = Err UnicodeEncodeError).
Proof.
  intros Hsha.
  destruct (sign_request_inv sha hmac Hsha endpoint region base_url access secret amz ds cq)
    as [A [B C]].
  split; [exact C|]. intros Hn.
  destruct (sign_request sha hmac endpoint region base_url access secret amz ds cq) as [req|e] eqn:E.
  - exfalso. exact (Hn (A req eq_refl)).
  - rewrite (B e eq_refl). reflexivity.
Qed.

Lemma utf8_all_not s : forallb utf8_ok s = false -> ~ utf8_all s.
Proof.
  intros H Hs. unfold utf8_all in Hs. rewrite Forall_forall in Hs.
  assert (forallb utf8_ok s = true) by (apply forallb_forall; exact Hs). congruence.
Qed.

(** *** AWIS.create_request (awis.py) *)

(** [AWIS.create_request] of awis.py (lines 170-195) reads the clock twice
    and then succeeds exactly when the secret key and the canonical query
    can be encoded as UTF-8 (its endpoint, region and timestamps always can;
    the access key id is never encoded).  On success it hands the signed
    request to [grequests.get], which only builds it; on failure it raises
    [UnicodeEncodeError] and builds nothing. *)
Theorem create_request_module_encoding sha hmac utc cq tr ur bl :
  (forall b, Forall is_byte (sha b)) ->
  forall a s,
    (utf8_all (s ++ cq) -> exists req,
       create_request_module sha hmac utc (init_module a s) cq (mkSt tr ur bl) =
       (mkSt tr (S (S ur)) (bl ++ [cq]), Ok req)) /\
    (~ utf8_all (s ++ cq) ->
       create_request_module sha hmac utc (init_module a s) cq (mkSt tr ur bl) =
       (mkSt tr (S (S ur)) bl, Err UnicodeEncodeError)).
Proof.
  intros Hsha a s. rewrite create_request_module_eq.
  assert (Hiff : utf8_all (M_SERVICE_ENDPOINT ++ M_SERVICE_REGION ++ s ++
                             strftime_amz (utc ur) ++ strftime_ds (utc (S ur)) ++ cq) <->
                 utf8_all (s ++ cq)).
  { pose proof (strftime_amz_ok (utc ur)) as H3. pose proof (strftime_ds_ok (utc (S ur))) as H4.
    assert (H1 : utf8_all M_SERVICE_ENDPOINT) by (apply utf8_all_lit; reflexivity).
    assert (H2 : utf8_all M_SERVICE_REGION) by (apply utf8_all_lit; reflexivity).
    unfold utf8_all in *. rewrite !Forall_app. tauto. }
  destruct (sign_request_dichotomy sha hmac M_SERVICE_ENDPOINT M_SERVICE_REGION M_AWS_BASE_URL
              a s (strftime_amz (utc ur)) (strftime_ds (utc (S ur))) cq Hsha) as [Hok Herr].
  split.
  - intros Hall. destruct (Hok (proj2 Hiff Hall)) as [req Hreq]. rewrite Hreq.
    exists req. reflexivity.
  - intros Hn. rewrite Herr by (intros H; exact (Hn (proj1 Hiff H))). reflexivity.
Qed.

Lemma create_request_module_encoding_witness :
  (forall b, Forall is_byte ((fun _ : bytes => [171; 205]) b)) /\
  create_request_module (fun _ => [171; 205]) hmac_toy (fun _ => 0)
    (init_module (lit "AKID") [55296]) (lit "Action=urlInfo") (mkSt 0 0 []) =
  (mkSt 0 2 [], Err UnicodeEncodeError).
Proof.
  assert (Hb : forall b, Forall is_byte ((fun _ : bytes => [171; 205]) b))
    by (intros b; repeat constructor; unfold is_byte; lia).
  split; [exact Hb|].
  apply (proj2 (create_request_module_encoding (fun _ => [171; 205]) hmac_toy (fun _ => 0)
                  (lit "Action=urlInfo") 0 0 [] Hb (lit "AKID") [55296])).
  apply utf8_all_not. vm_compute. reflexivity.
Defined.

(** *** AWIS.sha256 *)

(** For a digest function returning 32 bytes, [AWIS.sha256] (awis.py
    lines 201-205, awis/awis.py 208-212) turns every encodable text into 64
    lowercase hexadecimal digits, and fails with [UnicodeEncodeError] exactly
    on text holding a surrogate code point. *)
Theorem sha256_hex sha t :
  (forall b, Forall is_byte (sha b) /\ List.length (sha b) = 32%nat) ->
  (utf8_all t -> exists h, sha256 sha t = Ok h /\ List.length h = 64%nat /\
                           Forall (fun c => In c HEX_LOWER) h) /\
  (~ utf8_all t -> sha256 sha t = Err UnicodeEncodeError).
Proof.
  intros Hsha. unfold sha256, encode, of_option, rbind.
  destruct (encode_utf8 t) as [b|] eqn:E.
  - split.
    + intros _. eexists. split; [reflexivity|]. split.
      * rewrite bytes_hex_length, (proj2 (Hsha b)). reflexivity.
      * apply bytes_hex_chars. apply Hsha.
    + intros Hn. exfalso. exact (Hn (encode_some_all _ _ E)).
  - split; [intros Hall; exfalso; exact (encode_none_not_all _ E Hall) | reflexivity].
Qed.

Lemma sha256_hex_witness :
  (forall b, Forall is_byte ((fun _ : bytes => repeat 171 32) b) /\
             List.length ((fun _ : bytes => repeat 171 32) b) = 32%nat) /\
  exists h, sha256 (fun _ => repeat 171 32) (lit "abc") = Ok h /\ List.length h = 64%nat /\
            Forall (fun c => In c HEX_LOWER) h.
Proof.
  assert (Hb : forall b, Forall is_byte ((fun _ : bytes => repeat 171 32) b) /\
                         List.length ((fun _ : bytes => repeat 171 32) b) = 32%nat).
  { intros b. split; [|reflexivity]. apply Forall_forall. intros x Hx.
    apply repeat_spec in Hx. unfold is_byte. lia. }
  split; [exact Hb|].
  apply (proj1 (sha256_hex (fun _ => repeat 171 32) (lit "abc") Hb)).
  apply utf8_all_lit. reflexivity.
Defined.

(** ** The awis.py parser: dictionaries keyed by date *)

Lemma key_eqb_spec a b : key_eqb a b = true <-> a = b.
Proof.
  destruct a as [x|], b as [y|]; cbn; split; intros H; try congruence.
  - f_equal. apply pystr_eqb_true. exact H.
  - injection H as ->. apply pystr_eqb_refl.
Qed.

Lemma key_eqb_refl a : key_eqb a a = true.
Proof. apply key_eqb_spec. reflexivity. Qed.

Section DictProofs.

Variable pyfloat : Type.
Variable py_int : pystr -> option Z.
Variable py_float : pystr -> option pyfloat.
Variable et_parse : bytes -> option element.

Let dict := th_dict pyfloat.
Let set_rec (acc : dict) (r : TrafficHistory pyfloat) : dict :=
  dict_set pyfloat (th_date _ r) (stats_of pyfloat r) acc.

Lemma dict_get_set k k' v (d : dict) :
  dict_get pyfloat k (dict_set pyfloat k' v d) =
  if key_eqb k' k then Some v else dict_get pyfloat k d.
Proof.
  induction d as [|[k0 v0] rest IH]; cbn [dict_set dict_get]; [reflexivity|].
  destruct (key_eqb k0 k') eqn:E0.
  - apply key_eqb_spec in E0. subst k0. cbn [dict_get].
    destruct (key_eqb k' k); reflexivity.
  - cbn [dict_get]. rewrite IH.
    destruct (key_eqb k0 k) eqn:E1, (key_eqb k' k) eqn:E2; try reflexivity.
    apply key_eqb_spec in E1, E2. subst. rewrite key_eqb_refl in E0. discriminate.
Qed.

Lemma dict_set_keys k v (d : dict) x :
  In x (map fst (dict_set pyfloat k v d)) -> x = k \/ In x (map fst d).
Proof.
  induction d as [|[k0 v0] rest IH]; cbn [dict_set map fst].
  - intros [H|[]]. left. congruence.
  - destruct (key_eqb k0 k); cbn [map fst In].
    + intros H. right. exact H.
    + intros [H|H]; [right; left; exact H|]. destruct (IH H); [left | right; right]; assumption.
Qed.

Lemma dict_set_nodup k v (d : dict) :
  NoDup (map fst d) -> NoDup (map fst (dict_set pyfloat k v d)).
Proof.
  induction d as [|[k0 v0] rest IH]; cbn [dict_set map fst].
  - intros _. constructor; [intros []|constructor].
  - intros H. inversion H as [|? ? Hn Hd]; subst.
    destruct (key_eqb k0 k) eqn:E; cbn [map fst].
    + exact H.
    + constructor; [|exact (IH Hd)].
      intros Hin. destruct (dict_set_keys k v rest k0 Hin) as [->|Hin'].
      * rewrite key_eqb_refl in E. discriminate.
      * exact (Hn Hin').
Qed.

Lemma dict_set_length k v (d : dict) :
  (List.length (dict_set pyfloat k v d) <= S (List.length d))%nat.
Proof.
  induction d as [|[k0 v0] rest IH]; cbn [dict_set List.length]; [lia|].
  destruct (key_eqb k0 k); cbn [List.length]; lia.
Qed.

Lemma fold_set_get k rs (d : dict) :
  dict_get pyfloat k (fold_left set_rec rs d) =
  match last_with pyfloat k rs with
  | Some r => Some (stats_of pyfloat r)
  | None => dict_get pyfloat k d
  end.
Proof.
  revert d. induction rs as [|r rs IH]; intros d; cbn [fold_left last_with]; [reflexivity|].
  rewrite IH. destruct (last_with pyfloat k rs); [reflexivity|].
  unfold set_rec. rewrite dict_get_set. destruct (key_eqb (th_date _ r) k); reflexivity.
Qed.

Lemma fold_set_nodup rs (d : dict) :
  NoDup (map fst d) -> NoDup (map fst (fold_left set_rec rs d)).
Proof.
  revert d. induction rs as [|r rs IH]; intros d Hd; cbn [fold_left]; [exact Hd|].
  apply IH. apply dict_set_nodup. exact Hd.
Qed.

Lemma fold_set_length rs (d : dict) :
  (List.length (fold_left set_rec rs d) <= List.length d + List.length rs)%nat.
Proof.
  revert d. induction rs as [|r rs IH]; intros d; cbn [fold_left List.length]; [lia|].
  specialize (IH (set_rec d r)). unfold set_rec in *.
  pose proof (dict_set_length (th_date _ r) (stats_of pyfloat r) d). lia.
Qed.

Lemma parse_all_module_fold (acc : dict) els :
  parse_all_module pyfloat py_int py_float acc els =
  match parse_all pyfloat py_int py_float els with
  | Ok rs => Ok (fold_left set_rec rs acc)
  | Err e => Err e
  end.
Proof.
  revert acc. induction els as [|e rest IH]; intros acc; cbn [parse_all_module parse_all];
    [reflexivity|].
  unfold rbind. destruct (parse_data pyfloat py_int py_float e) as [r|err]; [|reflexivity].
  rewrite IH. destruct (parse_all pyfloat py_int py_float rest); reflexivity.
Qed.

Lemma parse_module_fold content :
  parse_traffic_history_module pyfloat py_int py_float et_parse content =
  match parse_traffic_history pyfloat py_int py_float et_parse content with
  | Ok rs => Ok (fold_left set_rec rs [])
  | Err e => Err e
  end.
Proof.
  unfold parse_traffic_history_module, parse_traffic_history, rbind, of_option.
  destruct (et_parse content); [apply parse_all_module_fold | reflexivity].
Qed.

Lemma dict_get_none k (d : dict) : ~ In k (map fst d) -> dict_get pyfloat k d = None.
Proof.
  induction d as [|[k0 v0] rest IH]; cbn [dict_get map fst In]; intros Hn; [reflexivity|].
  destruct (key_eqb k0 k) eqn:E.
  - apply key_eqb_spec in E. exfalso. exact (Hn (or_introl E)).
  - apply IH. intros H. exact (Hn (or_intror H)).
Qed.

Lemma dict_get_update k (a b : dict) :
  NoDup (map fst b) ->
  dict_get pyfloat k (dict_update pyfloat a b) =
  match dict_get pyfloat k b with
  | Some v => Some v
  | None => dict_get pyfloat k a
  end.
Proof.
  unfold dict_update. revert a. induction b as [|[k0 v0] rest IH]; intros a Hb;
    cbn [fold_left dict_get fst snd]; [reflexivity|].
  inversion Hb as [|? ? Hn Hd]; subst.
  rewrite (IH _ Hd), dict_get_set. destruct (key_eqb k0 k) eqn:E.
  - apply key_eqb_spec in E. subst k0. rewrite (dict_get_none k rest Hn). reflexivity.
  - destruct (dict_get pyfloat k rest); reflexivity.
Qed.

Lemma dict_update_nodup (a b : dict) :
  NoDup (map fst a) -> NoDup (map fst (dict_update pyfloat a b)).
Proof.
  unfold dict_update. revert a. induction b as [|[k0 v0] rest IH]; intros a Ha;
    cbn [fold_left fst snd]; [exact Ha|].
  apply IH. apply dict_set_nodup. exact Ha.
Qed.

End DictProofs.

Lemma parse_module_nodup pyfloat py_int py_float et_parse c d :
  parse_traffic_history_module pyfloat py_int py_float et_parse c = Ok d -> NoDup (map fst d).
Proof.
  rewrite parse_module_fold.
  destruct (parse_traffic_history pyfloat py_int py_float et_parse c); [|discriminate].
  intros H. injection H as <-. apply fold_set_nodup. constructor.
Qed.

Lemma merge_parsed_acc pyfloat py_int py_float et_parse responses : forall acc out,
  merge_parsed pyfloat py_int py_float et_parse acc responses = Ok out ->
  exists ds,
    Forall2 (fun r d => exists c, r = Some c /\
               parse_traffic_history_module pyfloat py_int py_float et_parse c = Ok d) responses ds /\
    (NoDup (map fst acc) -> NoDup (map fst out)) /\
    forall k, dict_get pyfloat k out =
              match last_get pyfloat k ds with Some v => Some v | None => dict_get pyfloat k acc end.
Proof.
  induction responses as [|r rest IH]; intros acc out; cbn [merge_parsed].
  - intros H. injection H as <-. exists []. split; [constructor|]. split; [auto|].
    intros k. reflexivity.
  - unfold rbind, some_or_attr, of_option. destruct r as [c|]; [|discriminate].
    destruct (parse_traffic_history_module pyfloat py_int py_float et_parse c) as [d|e] eqn:Ed;
      [|discriminate].
    intros H. destruct (IH _ _ H) as [ds [Hf [Hn Hg]]].
    exists (d :: ds). split; [constructor; [exists c; split; [reflexivity | exact Ed] | exact Hf]|].
    split.
    + intros Ha. apply Hn. apply dict_update_nodup. exact Ha.
    + intros k. rewrite Hg. cbn [last_get].
      rewrite dict_get_update by exact (parse_module_nodup _ _ _ _ _ _ Ed).
      destruct (last_get pyfloat k ds), (dict_get pyfloat k d); reflexivity.
Qed.

Lemma merge_parsed_total pyfloat py_int py_float et_parse responses ds :
  Forall2 (fun r d => exists c, r = Some c /\
             parse_traffic_history_module pyfloat py_int py_float et_parse c = Ok d) responses ds ->
  forall acc, exists out, merge_parsed pyfloat py_int py_float et_parse acc responses = Ok out.
Proof.
  induction 1 as [|r d rest ds' [c [-> Hc]] _ IH]; intros acc; cbn [merge_parsed].
  - exists acc. reflexivity.
  - unfold rbind, some_or_attr, of_option. rewrite Hc. apply IH.
Qed.

(** awis.py's [AWIS.parse_traffic_history] (lines 143-163) fails exactly when
    the package version's parser does, with the same error; on success it
    returns a dict with no repeated date whose entry for each date is the
    statistics of the last [Data] record with that date, and it has at most
    as many entries as there are records. *)
Theorem parse_traffic_history_module_dict pyfloat py_int py_float et_parse content :
  match parse_traffic_history_module pyfloat py_int py_float et_parse content,
        parse_traffic_history pyfloat py_int py_float et_parse content with
  | Err e1, Err e2 => e1 = e2
  | Ok out, Ok rs =>
      NoDup (map fst out) /\
      (forall k, dict_get pyfloat k out = option_map (stats_of pyfloat) (last_with pyfloat k rs)) /\
      (List.length out <= List.length rs)%nat
  | _, _ => False
  end.
Proof.
  rewrite parse_module_fold.
  destruct (parse_traffic_history pyfloat py_int py_float et_parse content) as [rs|e];
    [|reflexivity].
  split; [apply fold_set_nodup; constructor|]. split.
  - intros k. rewrite fold_set_get. destruct (last_with pyfloat k rs); reflexivity.
  - pose proof (fold_set_length pyfloat rs []) as H. cbn [List.length] in H. exact H.
Qed.

(** The merge loop of awis.py's [AWIS.traffic_history] (lines 136-141)
    succeeds exactly when every response is present and parses; the merged
    dict then has no repeated date, and each date maps to its value in the
    last response that has it. *)
Theorem merge_parsed_last pyfloat py_int py_float et_parse responses :
  (forall out, merge_parsed pyfloat py_int py_float et_parse [] responses = Ok out ->
   exists ds,
     Forall2 (fun r d => exists c, r = Some c /\
                parse_traffic_history_module pyfloat py_int py_float et_parse c = Ok d)
       responses ds /\
     NoDup (map fst out) /\
     forall k, dict_get pyfloat k out = last_get pyfloat k ds) /\
  (forall ds,
     Forall2 (fun r d => exists c, r = Some c /\
                parse_traffic_history_module pyfloat py_int py_float et_parse c = Ok d)
       responses ds ->
   exists out, merge_parsed pyfloat py_int py_float et_parse [] responses = Ok out).
Proof.
  split.
  - intros out H. destruct (merge_parsed_acc pyfloat py_int py_float et_parse responses [] out H)
      as [ds [Hf [Hn Hg]]].
    exists ds. split; [exact Hf|]. split; [apply Hn; constructor|].
    intros k. rewrite Hg. destruct (last_get pyfloat k ds); reflexivity.
  - intros ds Hf. exact (merge_parsed_total _ _ _ _ _ _ Hf []).
Qed.

Lemma merge_parsed_last_witness :
  exists out, merge_parsed (Z * nat) py_int_dec py_float_dec
                (fun _ => Some (response_fixture aws_tag)) [] [Some []; Some [1]] = Ok out.
Proof.
  eapply (proj2 (merge_parsed_last (Z * nat) py_int_dec py_float_dec
                   (fun _ => Some (response_fixture aws_tag)) [Some []; Some [1]])).
  constructor; [eexists; split; [reflexivity | reflexivity]|].
  constructor; [eexists; split; [reflexivity | reflexivity]|].
  constructor.
Defined.

Lemma last_with_app pyfloat k (p q : list (TrafficHistory pyfloat)) :
  last_with pyfloat k (p ++ q) =
  match last_with pyfloat k q with Some x => Some x | None => last_with pyfloat k p end.
Proof.
  induction p as [|r p IH]; cbn [app last_with].
  - destruct (last_with pyfloat k q); reflexivity.
  - rewrite IH. destruct (last_with pyfloat k q), (last_with pyfloat k p); reflexivity.
Qed.

Lemma merge_chain_errors pyfloat py_int py_float et_parse cs : forall acc,
  match merge_parsed pyfloat py_int py_float et_parse acc (map Some cs),
        parse_each pyfloat py_int py_float et_parse cs with
  | Err e1, Err e2 => e1 = e2
  | Ok _, Ok _ => True
  | _, _ => False
  end.
Proof.
  induction cs as [|c cs IH]; intros acc; cbn [map merge_parsed parse_each]; [exact I|].
  unfold rbind, some_or_attr, of_option. rewrite parse_module_fold.
  destruct (parse_traffic_history pyfloat py_int py_float et_parse c) as [rs|e]; [|reflexivity].
  specialize (IH (dict_update pyfloat acc (fold_left (fun acc r =>
    dict_set pyfloat (th_date _ r) (stats_of pyfloat r) acc) rs []))).
  destruct (merge_parsed _ _ _ _ _ _), (parse_each pyfloat py_int py_float et_parse cs);
    try contradiction; exact IH.
Qed.

Lemma merge_chain_values pyfloat py_int py_float et_parse cs ds ps :
  Forall2 (fun r d => exists c, r = Some c /\
             parse_traffic_history_module pyfloat py_int py_float et_parse c = Ok d) (map Some cs) ds ->
  parse_each pyfloat py_int py_float et_parse cs = Ok ps ->
  forall k, last_get pyfloat k ds = option_map (stats_of pyfloat) (last_with pyfloat k (List.concat ps)).
Proof.
  revert ds ps. induction cs as [|c cs IH]; intros ds ps Hf Hp k; cbn [map parse_each] in *.
  - inversion Hf; subst. injection Hp as <-. reflexivity.
  - inversion Hf as [|? d ? ds' [c' [Hc Hd]] Hf']; subst. injection Hc as <-.
    unfold rbind in Hp.
    destruct (parse_traffic_history pyfloat py_int py_float et_parse c) as [p|e] eqn:Ep;
      [|discriminate].
    destruct (parse_each pyfloat py_int py_float et_parse cs) as [ps'|e] eqn:Eps; [|discriminate].
    injection Hp as <-. cbn [last_get List.concat]. rewrite last_with_app, (IH ds' ps' Hf' eq_refl k).
    rewrite parse_module_fold, Ep in Hd. injection Hd as <-. rewrite fold_set_get.
    destruct (last_with pyfloat k (List.concat ps')), (last_with pyfloat k p); reflexivity.
Qed.

(** On the same response contents, the awis.py merge of
    [AWIS.traffic_history] (lines 136-141) and the package's chaining of
    parsed records (awis/awis.py 143-145) fail together with the same error;
    when they succeed, the awis.py dict maps each date to the statistics of
    the last record with that date in the package's list. *)
Theorem traffic_history_merge_chain pyfloat py_int py_float et_parse cs :
  match merge_parsed pyfloat py_int py_float et_parse [] (map Some cs),
        chain_parsed pyfloat py_int py_float et_parse cs with
  | Err e1, Err e2 => e1 = e2
  | Ok out, Ok rs =>
      NoDup (map fst out) /\
      forall k, dict_get pyfloat k out = option_map (stats_of pyfloat) (last_with pyfloat k rs)
  | _, _ => False
  end.
Proof.
  pose proof (merge_chain_errors pyfloat py_int py_float et_parse cs []) as Herr.
  unfold chain_parsed, rbind.
  destruct (merge_parsed pyfloat py_int py_float et_parse [] (map Some cs)) as [out|e1] eqn:Em,
    (parse_each pyfloat py_int py_float et_parse cs) as [ps|e2] eqn:Ep; try exact Herr.
  destruct (proj1 (merge_parsed_last pyfloat py_int py_float et_parse (map Some cs)) out Em)
    as [ds [Hf [Hn Hg]]].
  split; [exact Hn|]. intros k. rewrite Hg. exact (merge_chain_values _ _ _ _ _ _ _ Hf Ep k).
Qed.

(** ** AWIS.traffic_history, end to end *)

(** Both versions' [traffic_history], with the network and the parser
    whatever they are, reject a [search_range < 1] in the state they were
    called in, and reject a window ending today or later with the
    search-range error (or [OverflowError]) before any request is built;
    the network is not reached in either case. *)
Theorem traffic_history_end_to_end_validation today_at utc strptime sha hmac pyfloat py_int
    py_float et_parse grequests_map requests_get self_m self_p url sr sd rev s0 :
  (sr < 1 ->
   traffic_history_module today_at utc strptime sha hmac pyfloat py_int py_float et_parse
     grequests_map self_m url sr sd rev s0 = (s0, Err (SearchRangeError SR_SMALL_MSG)) /\
   traffic_history_package today_at utc strptime sha hmac pyfloat py_int py_float et_parse
     requests_get self_p url sr sd rev s0 =
     (s0, Err (ValueError "search_range must be at least 1."))) /\
  (forall s1 d,
   th_start today_at strptime sr sd rev s0 = (s1, Ok d) ->
   1 <= sr -> today_at (today_reads s1) <= d + sr ->
   (exists s2 e,
      traffic_history_module today_at utc strptime sha hmac pyfloat py_int py_float et_parse
        grequests_map self_m url sr sd rev s0 = (s2, Err e) /\
      (e = SearchRangeError SR_PAST_MSG \/ e = OverflowError) /\ built s2 = built s0) /\
   (exists s2 e,
      traffic_history_package today_at utc strptime sha hmac pyfloat py_int py_float et_parse
        requests_get self_p url sr sd rev s0 = (s2, Err e) /\
      (e = ValueError SR_PAST_MSG \/ e = OverflowError) /\ built s2 = built s0)).
Proof.
  split.
  - intros Hsr. unfold traffic_history_module, traffic_history_package, th_requests_module,
      th_queries_package, traffic_history, bind at 1.
    replace (sr <? 1) with true by (symmetry; apply Z.ltb_lt; exact Hsr).
    split; reflexivity.
  - intros s1 d Hs Hsr Hle. split.
    + destruct (th_past_rejected today_at strptime (SearchRangeError SR_SMALL_MSG)
                  (SearchRangeError SR_PAST_MSG) (create_request_module sha hmac utc self_m)
                  url sr sd rev s0 s1 d Hs Hsr Hle) as [s2 [e [He Hr]]].
      exists s2, e. split; [|exact Hr].
      unfold traffic_history_module, th_requests_module, bind at 1. rewrite He. reflexivity.
    + destruct (th_past_rejected today_at strptime (ValueError "search_range must be at least 1.")
                  (ValueError SR_PAST_MSG) ret url sr sd rev s0 s1 d Hs Hsr Hle)
        as [s2 [e [He Hr]]].
      exists s2, e. split; [|exact Hr].
      unfold traffic_history_package, th_queries_package, bind at 1. rewrite He. reflexivity.
Qed.

Lemma traffic_history_end_to_end_validation_witness :
  traffic_history_module (today_fixed TODAY) (fun _ => 0) strptime_ymd8 sha256_toy hmac_toy
    (Z * nat) py_int_dec py_float_dec (fun _ => None) (fun _ st => (st, Ok []))
    (init_module (lit "AKID") (lit "secret")) url_ex 0 None false st0 =
    (st0, Err (SearchRangeError SR_SMALL_MSG)) /\
  traffic_history_package (today_fixed TODAY) (fun _ => 0) strptime_ymd8 sha256_toy hmac_toy
    (Z * nat) py_int_dec py_float_dec (fun _ => None) net_empty
    (init_package (lit "AKID") (lit "secret") (lit "us-west-1")) url_ex 0 None false st0 =
    (st0, Err (ValueError "search_range must be at least 1.")).
Proof.
  apply (proj1 (traffic_history_end_to_end_validation (today_fixed TODAY) (fun _ => 0)
                  strptime_ymd8 sha256_toy hmac_toy (Z * nat) py_int_dec py_float_dec
                  (fun _ => None) (fun _ st => (st, Ok [])) net_empty
                  (init_module (lit "AKID") (lit "secret"))
                  (init_package (lit "AKID") (lit "secret") (lit "us-west-1"))
                  url_ex 0 None false st0)).
  lia.
Defined.
